(** * The fact-checking agent of [src/agent/langChainAgent.py]

    A shallow embedding of the claim-to-verdict pipeline: the structured
    model caller [gemini_json], the evidence normalizer
    [normalize_research], the two pydantic contracts [ClaimJudge] and
    [VerdictOut], the four graph nodes, the routing function and the
    runner [run_agent].

    Python values are embedded as the type [pyval] (what [json.loads] and
    the search client hand to the code), dictionaries as [gmap string pyval],
    exceptions as the type [exn], and the two remote services (the
    text-generation service and the search service) as scripted oracles
    inside an explicit world that every effectful function threads. *)

From Stdlib Require Import ZArith QArith_base SpecFloat Ascii.
From stdpp Require Import base option list gmap strings pretty.

Set Default Proof Using "Type".
Set Warnings "-register-all".
Open Scope Z_scope.

(** ** Python values *)

(** The values a decoded JSON document is made of. A Python [float] is a
    [spec_float] (sign, mantissa, exponent, the two infinities and NaN); a
    character of a Python [str] is one [ascii], so that [String.length] is
    [len] and an index counts characters. *)
Inductive pyval : Type :=
  | PNone
  | PBool (b : bool)
  | PInt (z : Z)
  | PFloat (f : spec_float)
  | PStr (s : string)
  | PList (l : list pyval)
  | PDict (d : gmap string pyval).

Abbreviation pydict := (gmap string pyval).

(** [class AgentState(TypedDict, total=False)]: at run time a dictionary
    in which any of the keys may be missing. *)
Abbreviation AgentState := (gmap string pyval).

Global Instance pyval_inhabited : Inhabited pyval := populate PNone.

(** Exceptions the code can raise or let through. [JSONDecodeError] keeps
    the [doc] attribute of Python's exception (the document that was being
    parsed); a [ValidationError] lists, per offending field, the field name
    and pydantic's error type. *)
Inductive exn : Type :=
  | JSONDecodeError (doc : string)
  | ValidationError (model : string) (errors : list (string * string))
  | RuntimeError (msg : string)
  | TypeError (what : string)
  | AttributeError (what : string)
  | KeyError (key : string)
  | GraphRecursionError
  | ServiceError (what : string).

Module Py.

(** [bool(v)]: Python's truth value. *)
Definition truthy (v : pyval) : bool :=
  match v with
  | PNone => false
  | PBool b => b
  | PInt z => negb (z =? 0)
  | PFloat (S754_zero _) => false
  | PFloat _ => true
  | PStr s => negb (String.eqb s "")
  | PList l => match l with [] => false | _ => true end
  | PDict d => negb (bool_decide (d = ∅))
  end.

(** [a or b], with [b] already evaluated (it has no effect here). *)
Definition or (a b : pyval) : pyval := if truthy a then a else b.

(** [d.get(k)] and [d.get(k, dflt)]. *)
Definition get (d : pydict) (k : string) : pyval := default PNone (d !! k).
Definition get_or (d : pydict) (k : string) (dflt : pyval) : pyval :=
  default dflt (d !! k).

(** [v == s] for a string literal [s]. *)
Definition eq_str (v : pyval) (s : string) : bool :=
  match v with PStr t => String.eqb t s | _ => false end.

(** The first [n] characters of a string: [s[:n]] for [n >= 0]. *)
Fixpoint str_take (n : nat) (s : string) : string :=
  match n, s with
  | S n', String c s' => String c (str_take n' s')
  | _, _ => ""
  end.

Global Arguments str_take !n !s /.

(** [v[:n]]: strings and lists can be sliced; the other JSON values
    raise (an [int] is not subscriptable, a [dict] rejects the slice as a
    key). *)
Definition slice_to (n : nat) (v : pyval) : exn + pyval :=
  match v with
  | PStr s => inr (PStr (str_take n s))
  | PList l => inr (PList (take n l))
  | PNone => inl (TypeError "'NoneType' object is not subscriptable")
  | PBool _ => inl (TypeError "'bool' object is not subscriptable")
  | PInt _ => inl (TypeError "'int' object is not subscriptable")
  | PFloat _ => inl (TypeError "'float' object is not subscriptable")
  | PDict _ => inl (TypeError "unhashable type: 'slice'")
      (* a [KeyError] from Python 3.12 on, where a slice can be hashed *)
  end.

(** The items a [for] loop over [v] visits. A string yields its
    characters, a dictionary its keys. *)
Definition iter (v : pyval) : exn + list pyval :=
  match v with
  | PList l => inr l
  | PStr s => inr ((λ c, PStr (String c "")) <$> String.list_ascii_of_string s)
  | PDict d => inr (PStr <$> (map_to_list d).*1)
  | PNone => inl (TypeError "'NoneType' object is not iterable")
  | PBool _ => inl (TypeError "'bool' object is not iterable")
  | PInt _ => inl (TypeError "'int' object is not iterable")
  | PFloat _ => inl (TypeError "'float' object is not iterable")
  end.

(** [d[k]] *)
Definition getitem (d : pydict) (k : string) : exn + pyval :=
  match d !! k with
  | Some v => inr v
  | None => inl (KeyError k)
  end.

(** *** Hashing and equality of set members

    [x in seen] for a Python [set] compares by [hash] and [==]. Among
    JSON values only [None], booleans, numbers and strings are hashable.
    Booleans, integers and floats compare by numeric value
    ([True == 1 == 1.0]), NaN equals nothing. A [hkey] is the canonical
    form of a hashable value: two hashable values are [==] exactly when
    their keys are the same. A finite number is [m * 2^e] with [m] odd,
    or zero. *)
Inductive hkey : Type :=
  | KNone
  | KStr (s : string)
  | KZero
  | KNum (neg : bool) (m : positive) (e : Z)
  | KInf (neg : bool)
  | KNaN.

Global Instance hkey_eq_dec : EqDecision hkey.
Proof. solve_decision. Defined.

Fixpoint odd_part (m : positive) (e : Z) : positive * Z :=
  match m with
  | xO m' => odd_part m' (e + 1)
  | _ => (m, e)
  end.

Definition num_key (neg : bool) (m : positive) (e : Z) : hkey :=
  let '(m', e') := odd_part m e in KNum neg m' e'.

Definition int_key (z : Z) : hkey :=
  match z with
  | Z0 => KZero
  | Zpos p => num_key false p 0
  | Zneg p => num_key true p 0
  end.

Definition float_key (f : spec_float) : hkey :=
  match f with
  | S754_zero _ => KZero
  | S754_infinity s => KInf s
  | S754_nan => KNaN
  | S754_finite s m e => num_key s m e
  end.

(** [hash(v)]: the key, or [TypeError] for an unhashable value. *)
Definition hash_key (v : pyval) : exn + hkey :=
  match v with
  | PNone => inr KNone
  | PBool b => inr (int_key (if b then 1 else 0))
  | PInt z => inr (int_key z)
  | PFloat f => inr (float_key f)
  | PStr s => inr (KStr s)
  | PList _ => inl (TypeError "unhashable type: 'list'")
  | PDict _ => inl (TypeError "unhashable type: 'dict'")
  end.

(** Two keys denote [==] members; NaN is unequal to everything (the
    values are decoded documents, no two of them share one float
    object). *)
Definition key_eqb (k1 k2 : hkey) : bool :=
  match k1 with
  | KNaN => false
  | _ => bool_decide (k1 = k2)
  end.

(** A Python [set] of hashable values, as the list of the keys added. *)
Definition key_in (k : hkey) (seen : list hkey) : bool :=
  existsb (key_eqb k) seen.

(** *** Strings *)

(** [str.isspace] on one character (code points below 256). *)
Definition isspace (c : ascii) : bool :=
  let n := nat_of_ascii c in
  ((9 <=? n) && (n <=? 13) || (28 <=? n) && (n <=? 32)
   || (n =? 133) || (n =? 160))%nat.

Fixpoint lstrip (s : string) : string :=
  match s with
  | String c s' => if isspace c then lstrip s' else s
  | EmptyString => EmptyString
  end.

Definition rstrip (s : string) : string := String.rev (lstrip (String.rev s)).

(** [s.strip()] *)
Definition strip (s : string) : string := rstrip (lstrip s).

(** [s.removeprefix(p)] when [s.startswith(p)], else [None]. *)
Fixpoint strip_prefix (p s : string) : option string :=
  match p, s with
  | EmptyString, _ => Some s
  | String a p', String b s' =>
      if Ascii.eqb a b then strip_prefix p' s' else None
  | String _ _, EmptyString => None
  end.

Definition strip_suffix (p s : string) : option string :=
  String.rev <$> strip_prefix (String.rev p) (String.rev s).

(** One line feed. *)
Definition nl : string := String "010" "".

(** [sep.join(lines)] with a line feed as separator. *)
Fixpoint unlines (lines : list string) : string :=
  match lines with
  | [] => ""
  | [l] => l
  | l :: ls => l +:+ nl +:+ unlines ls
  end.

End Py.

(** Pure steps that may raise: [inl e] is the exception. *)
Global Instance res_ret : MRet (sum exn) := λ A (a : A), inr a.
Global Instance res_bind : MBind (sum exn) := λ A B (k : A → exn + B) m,
  match m with
  | inr a => k a
  | inl e => inl e
  end.

(** ** The world: the two remote services and what the code did to them *)

(** What [generate_content(...)] followed by [resp.text] gives: a text, no
    text ([None]), or an exception of the client. *)
Inductive gen_response : Type :=
  | GenText (text : option string)
  | GenRaises (e : exn).

(** What [tavily.search(...)] gives: the decoded response document, or an
    exception of the client. *)
Inductive search_response : Type :=
  | SearchResult (res : pydict)
  | SearchRaises (e : exn).

(** The observable actions, in the order they happen. *)
Inductive event : Type :=
  | EvGenerate (model : string) (user_part : string) (temperature : Q)
  | EvSleep (seconds : Q)
  | EvSearch (query : pyval) (max_results : Z).

(** The [i]-th call to a service is answered by its script at [i]; the
    counters say how many calls were made, the trace what was sent. *)
Record World : Type := mkWorld {
  model_reply : nat → gen_response;
  search_reply : nat → search_response;
  n_generate : nat;
  n_search : nat;
  trace : list event;
}.

(** Computations that read and change the world and may raise. *)
Definition M (A : Type) : Type := World → (exn + A) * World.

Global Instance M_ret : MRet M := λ A (a : A) w, (inr a, w).
Global Instance M_bind : MBind M := λ A B (k : A → M B) (m : M A) w,
  match m w with
  | (inr a, w') => k a w'
  | (inl e, w') => (inl e, w')
  end.

Definition raise {A} (e : exn) : M A := λ w, (inl e, w).

(** A pure step that may raise. *)
Definition lift {A} (r : exn + A) : M A := λ w, (r, w).

(** [try: m  except ValidationError as e: h e]; other exceptions pass. *)
Definition except_ValidationError {A} (m : M A) (h : exn → M A) : M A := λ w,
  match m w with
  | (inl (ValidationError model errs), w') => h (ValidationError model errs) w'
  | r => r
  end.

(** [genai.GenerativeModel(model).generate_content(messages,
    generation_config={"temperature": temperature})] and then [resp.text].
    [messages] is always one user message with one part. *)
Definition generate_content (model user_part : string) (temperature : Q)
    : M (option string) := λ w,
  let w' := {| model_reply := model_reply w;
               search_reply := search_reply w;
               n_generate := S (n_generate w);
               n_search := n_search w;
               trace := trace w ++ [EvGenerate model user_part temperature] |} in
  match model_reply w (n_generate w) with
  | GenText t => (inr t, w')
  | GenRaises e => (inl e, w')
  end.

(** [time.sleep(seconds)] *)
Definition sleep (seconds : Q) : M unit := λ w,
  (inr tt, {| model_reply := model_reply w;
              search_reply := search_reply w;
              n_generate := n_generate w;
              n_search := n_search w;
              trace := trace w ++ [EvSleep seconds] |}).

(** [tavily.search(query=query, max_results=max_results)] *)
Definition tavily_search (query : pyval) (max_results : Z) : M pydict := λ w,
  let w' := {| model_reply := model_reply w;
               search_reply := search_reply w;
               n_generate := n_generate w;
               n_search := S (n_search w);
               trace := trace w ++ [EvSearch query max_results] |} in
  match search_reply w (n_search w) with
  | SearchResult res => (inr res, w')
  | SearchRaises e => (inl e, w')
  end.

(** ** Cleaning a model response *)

(** [re.sub(r"^```(?:json)?\s*|\s*```$", "", text, flags=re.DOTALL)].

    The first alternative can only match at position 0: three backquotes,
    then [json] if it is there, then all the whitespace that follows. The
    second alternative matches a run of whitespace and three backquotes that
    end the text ([$] also matches just before a line feed that ends the
    text); the leftmost such match starts where the whitespace run starts.
    Matches do not overlap, so the second is looked for in what the first
    left. *)
Definition strip_code_fences (text : string) : string :=
  let fence := "```" in
  let rest :=
    match Py.strip_prefix fence text with
    | Some r => Py.lstrip (default r (Py.strip_prefix "json" r))
    | None => text
    end in
  match Py.strip_suffix fence rest with
  | Some body => Py.rstrip body
  | None =>
      match Py.strip_suffix (fence +:+ Py.nl) rest with
      | Some body => Py.rstrip body +:+ Py.nl
      | None => rest
      end
  end.

(** [text = (resp.text or "").strip()] and then the fence stripping. *)
Definition clean_response (resp_text : option string) : string :=
  strip_code_fences (Py.strip (default "" resp_text)).

(** ** The two contracts (pydantic models)

    Building a model from keyword arguments, as pydantic (version 2) does
    in its default lax mode on Python input: unknown keys are ignored,
    every field is validated and the errors of all fields are collected
    into one [ValidationError]. Only a string is a [str], a [bool] also
    accepts 0, 1 and the usual spellings, a literal is matched exactly. An
    error is
    recorded as the location (the field, and for a nested value the index
    and key, joined by dots) and pydantic's error type. Nested errors are
    listed in the order of the map's keys. *)

Module Pydantic.

Definition field_errors := list (string * string).

(** A field's outcome: its value, or its errors. *)
Definition checked (A : Type) : Type := (field_errors + A)%type.

Definition lower_char (c : ascii) : ascii :=
  let n := nat_of_ascii c in
  if ((65 <=? n) && (n <=? 90))%nat then ascii_of_nat (n + 32) else c.

Fixpoint lower (s : string) : string :=
  match s with
  | String c s' => String (lower_char c) (lower s')
  | EmptyString => EmptyString
  end.

(** A [bool] field: booleans, the numbers 0 and 1, and the usual
    spellings, letter case ignored. *)
Definition validate_bool (loc : string) (v : pyval) : checked bool :=
  match v with
  | PBool b => inr b
  | PInt 0 => inr false
  | PInt 1 => inr true
  | PInt _ => inl [(loc, "bool_parsing")]
  | PFloat f =>
      match Py.float_key f with
      | Py.KZero => inr false
      | Py.KNum false 1%positive 0 => inr true
      | _ => inl [(loc, "bool_parsing")]
      end
  | PStr s =>
      let l := lower s in
      if bool_decide (l ∈ ["0"; "off"; "f"; "false"; "n"; "no"]) then inr false
      else if bool_decide (l ∈ ["1"; "on"; "t"; "true"; "y"; "yes"]) then inr true
      else inl [(loc, "bool_parsing")]
  | _ => inl [(loc, "bool_type")]
  end.

(** A [str] field: only a string is one. *)
Definition validate_str (loc : string) (v : pyval) : checked string :=
  match v with
  | PStr s => inr s
  | _ => inl [(loc, "string_type")]
  end.

(** [str] with [max_length]. *)
Definition validate_str_max (max_length : nat) (loc : string) (v : pyval)
    : checked string :=
  match validate_str loc v with
  | inr s =>
      if (String.length s <=? max_length)%nat then inr s
      else inl [(loc, "string_too_long")]
  | inl e => inl e
  end.

(** [Literal[...]] of strings: the value must be one of them. *)
Definition validate_literal (choices : list string) (loc : string)
    (v : pyval) : checked string :=
  match v with
  | PStr s => if bool_decide (s ∈ choices) then inr s
              else inl [(loc, "literal_error")]
  | _ => inl [(loc, "literal_error")]
  end.

(** [Dict[str, str]]: a mapping all of whose values are strings; it is
    returned with every key it came with. *)
Definition validate_dict_str (loc : string) (v : pyval) : checked pydict :=
  match v with
  | PDict d =>
      let bad := omap (λ '(k, x), match x with
                                  | PStr _ => None
                                  | _ => Some (loc +:+ "." +:+ k, "string_type")
                                  end) (map_to_list d) in
      match bad with [] => inr d | _ => inl bad end
  | _ => inl [(loc, "dict_type")]
  end.

(** The items of a [List[Dict[str, str]]], from index [i] on. *)
Fixpoint validate_items (loc : string) (i : nat) (l : list pyval)
    : checked (list pydict) :=
  match l with
  | [] => inr []
  | v :: l' =>
      match validate_dict_str (loc +:+ "." +:+ pretty i) v,
            validate_items loc (S i) l' with
      | inr d, inr ds => inr (d :: ds)
      | inl e, inr _ => inl e
      | inr _, inl es => inl es
      | inl e, inl es => inl (e ++ es)
      end
  end.

Definition validate_list_dict_str (loc : string) (v : pyval)
    : checked (list pydict) :=
  match v with
  | PList l => validate_items loc 0 l
  | _ => inl [(loc, "list_type")]
  end.

(** A required field. *)
Definition required {A} (validate : string → pyval → checked A)
    (kwargs : pydict) (field : string) : checked A :=
  match kwargs !! field with
  | Some v => validate field v
  | None => inl [(field, "missing")]
  end.

(** A field with a default, which is taken as it is. *)
Definition optional {A} (validate : string → pyval → checked A) (dflt : A)
    (kwargs : pydict) (field : string) : checked A :=
  match kwargs !! field with
  | Some v => validate field v
  | None => inr dflt
  end.

Definition errors_of {A} (c : checked A) : field_errors :=
  match c with inl e => e | inr _ => [] end.

(** Unpacking [raw] into keyword arguments needs a mapping. *)
Definition kwargs_of (raw : pyval) : exn + pydict :=
  match raw with
  | PDict d => inr d
  | _ => inl (TypeError "argument after ** must be a mapping")
  end.

End Pydantic.

(** [class ClaimJudge(BaseModel)]: [is_claim: bool] is required,
    [reason: str] has the default [None]. *)
Record ClaimJudge : Type := mkClaimJudge {
  cj_is_claim : bool;
  cj_reason : option string;
}.

Definition ClaimJudge_new (raw : pyval) : exn + ClaimJudge :=
  kwargs ← Pydantic.kwargs_of raw;
  let is_claim := Pydantic.required Pydantic.validate_bool kwargs "is_claim" in
  let reason :=
    Pydantic.optional
      (λ loc v, match Pydantic.validate_str loc v with
                | inr s => inr (Some s)
                | inl e => inl e
                end)
      None kwargs "reason" in
  match is_claim, reason with
  | inr b, inr r => inr (mkClaimJudge b r)
  | _, _ =>
      inl (ValidationError "ClaimJudge"
             (Pydantic.errors_of is_claim ++ Pydantic.errors_of reason))
  end.

(** [class VerdictOut(BaseModel)]: [verdict] is one of three literals,
    [explanation: str] has [max_length=600], [citations:
    List[Dict[str, str]]] defaults to a fresh empty list. *)
Record VerdictOut : Type := mkVerdictOut {
  vo_verdict : string;
  vo_explanation : string;
  vo_citations : list pydict;
}.

Definition VerdictOut_new (raw : pyval) : exn + VerdictOut :=
  kwargs ← Pydantic.kwargs_of raw;
  let verdict :=
    Pydantic.required
      (Pydantic.validate_literal ["true"; "false"; "unsubstantiated"])
      kwargs "verdict" in
  let explanation :=
    Pydantic.required (Pydantic.validate_str_max 600) kwargs "explanation" in
  let citations :=
    Pydantic.optional Pydantic.validate_list_dict_str [] kwargs "citations" in
  match verdict, explanation, citations with
  | inr v, inr e, inr c => inr (mkVerdictOut v e c)
  | _, _, _ =>
      inl (ValidationError "VerdictOut"
             (Pydantic.errors_of verdict ++ Pydantic.errors_of explanation
              ++ Pydantic.errors_of citations))
  end.

(** ** [normalize_research] *)

(** The dictionary built for one raw hit [r] in the first loop. [r.get]
    needs [r] to be a dictionary; slicing the snippet source can raise. *)
Definition normalize_hit (r : pyval) : exn + pydict :=
  match r with
  | PDict d =>
      snippet ← Py.slice_to 600
        (Py.or (Py.or (Py.get d "content") (Py.get d "snippet")) (PStr ""));
      mret ({[ "title" := Py.or (Py.get d "title") (PStr "(no title)");
               "url" := Py.or (Py.get d "url") (PStr "");
               "snippet" := snippet ]} : pydict)
  | _ => inl (AttributeError "object has no attribute 'get'")
  end.

(** [for r in ...: out.append({...})] *)
Fixpoint normalize_hits (items : list pyval) : exn + list pydict :=
  match items with
  | [] => mret []
  | r :: items' =>
      item ← normalize_hit r;
      out ← normalize_hits items';
      mret (item :: out)
  end.

(** The second loop, from the point where [seen] holds the keys added so
    far: an item whose url is in [seen] is skipped, any other is recorded
    and appended. *)
Fixpoint dedup_by_url (seen : list Py.hkey) (out : list pydict)
    : exn + list pydict :=
  match out with
  | [] => mret []
  | r :: out' =>
      url ← Py.getitem r "url";
      k ← Py.hash_key url;
      if Py.key_in k seen then dedup_by_url seen out'
      else
        dedup ← dedup_by_url (k :: seen) out';
        mret (r :: dedup)
  end.

Definition normalize_research (items : pyval) : exn + list pydict :=
  todo ← Py.iter (Py.or items (PList []));
  out ← normalize_hits todo;
  dedup_by_url [] out.

(** A list of dictionaries as the Python value it is. *)
Definition PDicts (l : list pydict) : pyval := PList (PDict <$> l).

(** *** What the normalizer is expected to do, in the words of the
    specification *)

(** The key an item's url is compared under, when the item has a url and
    the url can be a member of a set. *)
Definition url_key (r : pydict) : option Py.hkey :=
  match r !! "url" with
  | Some u => match Py.hash_key u with inr k => Some k | inl _ => None end
  | None => None
  end.

(** Two items have the same url. For two strings this is equality of the
    strings. *)
Definition same_url (a b : pydict) : bool :=
  match url_key a, url_key b with
  | Some ka, Some kb => Py.key_eqb ka kb
  | _, _ => false
  end.

(** The item [r] at position [i] of [l] is the first one with its url:
    no item before it has the same url. *)
Definition is_first_occurrence (l : list pydict) (i : nat) (r : pydict) : bool :=
  forallb (λ earlier, negb (same_url r earlier)) (take i l).

(** The items that are the first occurrence of their url, in the order
    of [l]. *)
Definition keep_first_occurrences (l : list pydict) : list pydict :=
  (filter (λ p, is_first_occurrence l p.1 p.2 = true) (imap pair l)).*2.

(** [r] matches none of the items in [before]. *)
Definition unseen (before : list pydict) (r : pydict) : bool :=
  forallb (λ earlier, negb (same_url r earlier)) before.

(** The set [seen] of the second loop stands for the items met so far:
    a key is in it exactly when some item of [before] has that url. *)
Definition seen_covers (seen : list Py.hkey) (before : list pydict) : Prop :=
  ∀ r k, url_key r = Some k → Py.key_in k seen = negb (unseen before r).

(** An item that the first loop maps to itself. *)
Definition normalized (item : pydict) : Prop :=
  normalize_hit (PDict item) = inr item.

(** A field that is a string, or absent, [None] or otherwise falsy. *)
Definition text_or_falsy (v : pyval) : bool :=
  match v with PStr _ => true | _ => negb (Py.truthy v) end.

(** A raw hit whose url, content and snippet are strings or falsy. *)
Definition well_formed_hit (d : pydict) : bool :=
  text_or_falsy (Py.get d "url") && text_or_falsy (Py.get d "content")
  && text_or_falsy (Py.get d "snippet").

Definition text_of (v : pyval) : string :=
  match v with PStr s => s | _ => "" end.

(** The evidence item of a raw hit: title or the placeholder, url or the
    empty string, the first 600 characters of content or snippet or the
    empty string. *)
Definition evidence_item (d : pydict) : pydict :=
  {[ "title" := Py.or (Py.get d "title") (PStr "(no title)");
     "url" := Py.or (Py.get d "url") (PStr "");
     "snippet" := PStr (Py.str_take 600
        (text_of (Py.or (Py.or (Py.get d "content") (Py.get d "snippet"))
                    (PStr "")))) ]}.

Definition snippet_bounded (o : pydict) : Prop :=
  ∃ s, o !! "snippet" = Some (PStr s) ∧ (String.length s ≤ 600)%nat.

(** A raw hit without a url: the field is absent, empty or falsy. *)
Definition url_less (r : pyval) : bool :=
  match r with
  | PDict d => negb (Py.truthy (Py.get d "url"))
  | _ => false
  end.

Definition has_empty_url (o : pydict) : bool := Py.eq_str (Py.get o "url") "".

(** ** A reader for a fragment of JSON

    [Json.loads] reads documents made of objects, arrays, strings with
    the two-character escapes, integers and the three literals, and
    rejects everything else. It stands for [json.loads] where a theorem
    is evaluated on a concrete response; the theorems themselves hold for
    any decoder. *)

Module Json.

Definition is_ws (c : ascii) : bool :=
  match c with
  | " " | "009" | "010" | "013" => true
  | _ => false
  end%char.

Fixpoint skip_ws (s : list ascii) : list ascii :=
  match s with
  | c :: s' => if is_ws c then skip_ws s' else s
  | [] => []
  end.

Definition digit (c : ascii) : option Z :=
  let n := nat_of_ascii c in
  if ((48 <=? n) && (n <=? 57))%nat then Some (Z.of_nat n - 48) else None.

(** The digits at the head of [s], accumulated onto [acc]. *)
Fixpoint digits (acc : Z) (s : list ascii) : Z * list ascii :=
  match s with
  | c :: s' =>
      match digit c with
      | Some d => digits (10 * acc + d) s'
      | None => (acc, s)
      end
  | [] => (acc, [])
  end.

(** An integer without sign: a single [0], or digits not starting with
    [0]. A fraction or an exponent is outside the fragment. *)
Definition natural (s : list ascii) : option (Z * list ascii) :=
  match s with
  | c :: s' =>
      match digit c with
      | Some 0 =>
          match s' with
          | c' :: _ =>
              if bool_decide (is_Some (digit c')) || Ascii.eqb c' "."
                 || Ascii.eqb c' "e" || Ascii.eqb c' "E"
              then None else Some (0, s')
          | [] => Some (0, [])
          end
      | Some d =>
          let '(z, r) := digits d s' in
          match r with
          | c' :: _ =>
              if Ascii.eqb c' "." || Ascii.eqb c' "e" || Ascii.eqb c' "E"
              then None else Some (z, r)
          | [] => Some (z, r)
          end
      | None => None
      end
  | [] => None
  end.

(** The body of a string after its opening quote, up to and without the
    closing one. Control characters must be escaped. *)
Fixpoint string_body (s : list ascii) : option (string * list ascii) :=
  match s with
  | [] => None
  | "034"%char :: r => Some ("", r)
  | "\"%char :: e :: r =>
      let continue (c : ascii) :=
        '(t, r') ← string_body r; Some (String c t, r') in
      match e with
      | "034" | "\" | "/" => continue e
      | "b" => continue "008"
      | "f" => continue "012"
      | "n" => continue "010"
      | "r" => continue "013"
      | "t" => continue "009"
      | _ => None
      end%char
  | c :: r =>
      if (nat_of_ascii c <? 32)%nat then None
      else '(t, r') ← string_body r; Some (String c t, r')
  end.

Fixpoint value (fuel : nat) (s : list ascii) : option (pyval * list ascii) :=
  match fuel with
  | O => None
  | S fuel' =>
      match skip_ws s with
      | "n" :: "u" :: "l" :: "l" :: r => Some (PNone, r)
      | "t" :: "r" :: "u" :: "e" :: r => Some (PBool true, r)
      | "f" :: "a" :: "l" :: "s" :: "e" :: r => Some (PBool false, r)
      | "034" :: r => '(t, r') ← string_body r; Some (PStr t, r')
      | "-" :: r => '(z, r') ← natural r; Some (PInt (- z), r')
      | "[" :: r =>
          match skip_ws r with
          | "]" :: r' => Some (PList [], r')
          | _ => '(l, r') ← elements fuel' r; Some (PList l, r')
          end
      | "{" :: r =>
          match skip_ws r with
          | "}" :: r' => Some (PDict ∅, r')
          | _ => '(d, r') ← members fuel' ∅ r; Some (PDict d, r')
          end
      | r => '(z, r') ← natural r; Some (PInt z, r')
      end%char
  end
with elements (fuel : nat) (s : list ascii)
    : option (list pyval * list ascii) :=
  match fuel with
  | O => None
  | S fuel' =>
      '(v, r) ← value fuel' s;
      match skip_ws r with
      | "," :: r' => '(l, r'') ← elements fuel' r'; Some (v :: l, r'')
      | "]" :: r' => Some ([v], r')
      | _ => None
      end%char
  end
with members (fuel : nat) (acc : pydict) (s : list ascii)
    : option (pydict * list ascii) :=
  match fuel with
  | O => None
  | S fuel' =>
      match skip_ws s with
      | "034" :: r =>
          '(k, r1) ← string_body r;
          match skip_ws r1 with
          | ":" :: r2 =>
              '(v, r3) ← value fuel' r2;
              let acc' := <[k := v]> acc in
              match skip_ws r3 with
              | "," :: r4 => members fuel' acc' r4
              | "}" :: r4 => Some (acc', r4)
              | _ => None
              end
          | _ => None
          end
      | _ => None
      end%char
  end.

(** The whole text must be one value, whitespace around it allowed. *)
Definition loads (text : string) : option pyval :=
  let s := String.list_ascii_of_string text in
  '(v, r) ← value (2 * length s + 2) s;
  match skip_ws r with
  | [] => Some v
  | _ => None
  end.

(** A plain rendering of a validation error: the model and, per error,
    its location and type. *)
Definition validation_error_str (model : string)
    (errors : list (string * string)) : string :=
  pretty (length errors) +:+ " validation error(s) for " +:+ model
  +:+ foldr (λ '(loc, ty) acc, Py.nl +:+ loc +:+ ": " +:+ ty +:+ acc) "" errors.

(** [str(v)] of a string is the string; other values are not rendered. *)
Definition str (v : pyval) : string :=
  match v with PStr s => s | _ => "<object>" end.

(** Serialisation is not carried out: the prompt shows a placeholder. *)
Definition dumps (v : pyval) : string := "<json>".

End Json.

(** ** Concrete responses and worlds *)

Module Demo.

Definition dq : string := String "034" "".

Definition quoted (s : string) : string := dq +:+ s +:+ dq.

(** The members of a JSON object, each value given as JSON text. *)
Fixpoint members (fields : list (string * string)) : string :=
  match fields with
  | [] => ""
  | [(k, v)] => quoted k +:+ ": " +:+ v
  | (k, v) :: rest => quoted k +:+ ": " +:+ v +:+ ", " +:+ members rest
  end.

Definition object (fields : list (string * string)) : string :=
  "{" +:+ members fields +:+ "}".

(** A response wrapped in a code fence. *)
Definition fenced (body : string) : string :=
  "```json" +:+ Py.nl +:+ body +:+ Py.nl +:+ "```".

(** A world in which the text-generation service answers with [replies]
    in turn (and with no text after that) and the search service always
    gives [search]. *)
Definition world (replies : list string) (search : search_response) : World :=
  mkWorld (λ i, GenText (replies !! i)) (λ _, search) 0 0 [].

Definition no_search : search_response :=
  SearchRaises (ServiceError "search is not expected").

Definition not_a_claim_reply : string :=
  object [("is_claim", "false"); ("reason", quoted "filler, no assertion")].

Definition claim_reply : string :=
  object [("is_claim", "true"); ("reason", quoted "checkable")].

(** A classification without the required field. *)
Definition bad_classification_reply : string :=
  object [("reason", quoted "no flag")].

(** A verdict outside the enumeration. *)
Definition maybe_reply : string :=
  object [("verdict", quoted "maybe"); ("explanation", quoted "unsure")].

(** A verdict without citations. *)
Definition uncited_reply : string :=
  object [("verdict", quoted "true"); ("explanation", quoted "well known");
          ("citations", "[]")].

Definition hit_a : pydict :=
  {[ "title" := PStr "A"; "url" := PStr "http://a"; "content" := PStr "alpha" ]}.

Definition hit_a_again : pydict :=
  {[ "title" := PStr "A, once more"; "url" := PStr "http://a";
     "content" := PStr "alpha again" ]}.

Definition hit_b : pydict :=
  {[ "title" := PStr "B"; "url" := PStr "http://b"; "snippet" := PStr "beta";
     "score" := PInt 1 ]}.

Definition hit_no_url : pydict := {[ "title" := PStr "no url" ]}.

Definition hit_empty_url : pydict :=
  {[ "title" := PStr "empty url"; "url" := PStr "" ]}.

(** A hit whose content is a number. *)
Definition hit_number : pydict :=
  {[ "title" := PStr "N"; "url" := PStr "http://n"; "content" := PInt 5 ]}.

Definition two_hits : search_response :=
  SearchResult {[ "results" := PDicts [hit_a; hit_b] ]}.



Definition maybe_verdict : pydict :=
  {[ "verdict" := PStr "maybe"; "explanation" := PStr "unsure" ]}.

End Demo.

(** ** The agent *)

Definition GEMINI_CLASSIFY_MODEL : string := "gemini-2.5-flash".
Definition GEMINI_ASSESS_MODEL : string := "gemini-2.5-pro".

Section Agent.

(** The library functions the agent calls and this development takes as
    given: [json.loads] ([None] when it raises [JSONDecodeError]),
    [json.dumps(v, ensure_ascii=False)], [str(v)] as an f-string renders
    a value ([str(s)] is [s] for a string), and [str(e)] of a pydantic
    [ValidationError]. *)
Variable json_loads : string → option pyval.
Variable json_dumps : pyval → string.
Variable py_str : pyval → string.
Variable ValidationError_str : string → list (string * string) → string.

(** [f"{e}"] for the exception caught by [except ValidationError as e]. *)
Definition exn_str (e : exn) : string :=
  match e with
  | ValidationError model errors => ValidationError_str model errors
  | _ => ""
  end.

(** *** [gemini_json] *)

(** The body of [for attempt in range(retries + 1)], with [todo]
    iterations left. [user_part] is the text of the one message sent
    (the string [sys] of the source is never used).
    When the range is empty the function falls off its end and returns
    [None]. *)
Fixpoint gemini_attempts (model prompt : string) (temperature : Q)
    (retries : Z) (todo : nat) (attempt : Z) (user_part : string)
    : M pyval :=
  match todo with
  | O => mret PNone
  | S todo' =>
      resp_text ← generate_content model user_part temperature;
      let text := clean_response resp_text in
      match json_loads text with
      | Some v => mret v
      | None =>
          if attempt =? retries then raise (JSONDecodeError text)
          else
            sleep (3 # 10);;
            gemini_attempts model prompt temperature retries todo'
              (attempt + 1)
              (prompt +:+ Py.nl +:+ Py.nl
               +:+ "Return ONLY valid JSON, no prose.")
      end
  end.

Definition gemini_json (model prompt : string) (temperature : Q)
    (retries : Z) : M pyval :=
  gemini_attempts model prompt temperature retries
    (Z.to_nat (retries + 1)) 0 prompt.

(** The text sent on every attempt after the first. *)
Definition tightened (prompt : string) : string :=
  prompt +:+ Py.nl +:+ Py.nl +:+ "Return ONLY valid JSON, no prose.".

(** A retry: the pause and the call with the tightened prompt. *)
Definition retry_events (model prompt : string) (temperature : Q)
    : list event :=
  [EvSleep (3 # 10); EvGenerate model (tightened prompt) temperature].

(** The [attempt]-th reply from the world [w] on is a text that does not
    decode. *)
Definition undecodable_reply (w : World) (attempt : nat) : Prop :=
  ∃ t, model_reply w (n_generate w + attempt)%nat = GenText t ∧
       json_loads (clean_response t) = None.

(** *** The nodes

    The state is the dictionary LangGraph hands to a node; a node
    returns it updated. The calls to [logger.info] are left out. *)

Definition classify_rubric : string := Py.unlines [
  "Task: Determine if the text contains ANY fact-checkable claim, even if mixed with opinions or fragments.";
  "";
  "Look for assertions about:";
  "- Health/medical facts (e.g., 'Tylenol is not good', 'X increases autism risk')";
  "- Government/policy actions (e.g., 'FDA announced...', 'President said...')";
  "- Scientific facts (e.g., 'water on Mars', 'climate change causes...')";
  "- Historical events or statistics";
  "- Any other verifiable fact about the world";
  "";
  "Be LENIENT with transcription fragments - extract the core claim even if incomplete.";
  "";
  "CLAIMS (fact-checkable):";
  "✓ 'The FDA announced new guidelines'";
  "✓ 'Tylenol is not good' (health claim)";
  "✓ 'increase risk of autism. So taking Tylenol not good' (fragments but contains checkable claim)";
  "✓ 'Effective immediately the FDA will be notifying physicians' (policy claim)";
  "";
  "NOT CLAIMS (pure filler with no factual assertions):";
  "✗ 'Let me see how we say that'";
  "✗ 'Is that okay?'";
  "✗ 'I said it as well'";
  "✗ 'Alright, uh, so...'";
  "";
  "Return JSON with keys: is_claim (true/false), reason (string <= 200 chars).";
  "";
  "" ].

Definition classify_prompt (text : pyval) : string :=
  classify_rubric +:+ "Text:" +:+ Py.nl +:+ "```" +:+ py_str text +:+ "```".

Definition assess_prompt (text : pyval) (research_json : string) : string :=
  Py.unlines [
    "You are a concise fact-checker. Using ONLY the provided research, decide if the claim is 'true', 'false', or 'unsubstantiated'.";
    "Return JSON: {verdict, explanation (<=600 chars), citations (array of {title,url} from the research only)}.";
    "";
    "Claim:";
    "```" +:+ py_str text +:+ "```";
    "";
    "Research JSON:";
    research_json ].

(** [judged.reason] as a Python value. *)
Definition reason_value (r : option string) : pyval :=
  match r with Some s => PStr s | None => PNone end.

Definition classify_claim (state : AgentState) : M AgentState :=
  text ← lift (Py.getitem state "input_text");
  let prompt := classify_prompt text in
  raw ← gemini_json GEMINI_CLASSIFY_MODEL prompt (1 # 10) 2;
  judged ← except_ValidationError (lift (ClaimJudge_new raw))
    (λ e, raise (RuntimeError
       ("classify_claim JSON failed validation: " +:+ exn_str e)));
  let state := <["is_claim" := PBool (cj_is_claim judged)]> state in
  let state := <["claim_reason" := reason_value (cj_reason judged)]> state in
  if negb (cj_is_claim judged) then
    let state := <["verdict" := PStr "not_a_claim"]> state in
    let state := <["explanation" := reason_value (cj_reason judged)]> state in
    mret state
  else mret state.

Definition research_with_tavily (state : AgentState) : M AgentState :=
  query ← lift (Py.getitem state "input_text");
  res ← tavily_search query 6;
  normalized ← lift (normalize_research (Py.get_or res "results" (PList [])));
  mret (<["research" := PDicts normalized]> state).

(** One element of the fallback comprehension:
    [{"title": r.get("title", ""), "url": r.get("url", "")}]. *)
Definition citation_of (r : pyval) : exn + pyval :=
  match r with
  | PDict d =>
      mret (PDict {[ "title" := Py.get_or d "title" (PStr "");
                     "url" := Py.get_or d "url" (PStr "") ]})
  | _ => inl (AttributeError "object has no attribute 'get'")
  end.

Fixpoint citations_of (research : list pyval) : exn + list pyval :=
  match research with
  | [] => mret []
  | r :: research' =>
      c ← citation_of r;
      cs ← citations_of research';
      mret (c :: cs)
  end.

(** The [{title, url}] pair of a research item. *)
Definition title_url_pair (r : pydict) : pyval :=
  PDict {[ "title" := Py.get_or r "title" (PStr "");
           "url" := Py.get_or r "url" (PStr "") ]}.

Definition assess_claim (state : AgentState) : M AgentState :=
  let research_json := json_dumps (Py.get_or state "research" (PList [])) in
  text ← lift (Py.getitem state "input_text");
  let prompt := assess_prompt text research_json in
  raw ← gemini_json GEMINI_ASSESS_MODEL prompt (2 # 10) 2;
  verdict ← except_ValidationError (lift (VerdictOut_new raw))
    (λ e, raise (RuntimeError
       ("assess_claim JSON failed validation: " +:+ exn_str e)));
  let state := <["verdict" := PStr (vo_verdict verdict)]> state in
  let state := <["explanation" := PStr (vo_explanation verdict)]> state in
  citations ←
    match vo_citations verdict with
    | _ :: _ => mret (PDicts (vo_citations verdict))
    | [] =>
        research ← lift (Py.iter (Py.get_or state "research" (PList [])));
        fallback ← lift (citations_of research);
        mret (PList fallback)
    end;
  mret (<["citations" := citations]> state).

Definition finalize (state : AgentState) : M AgentState := mret state.

(** *** The graph *)

Inductive node : Type :=
  | N_classify_claim
  | N_research_with_tavily
  | N_assess_claim
  | N_finalize
  | N_END.

Definition route_from_classify (state : AgentState) : node :=
  if Py.truthy (Py.get state "is_claim") then N_research_with_tavily
  else N_finalize.

(** What [add_node] registered under each name. *)
Definition node_action (n : node) : AgentState → M AgentState :=
  match n with
  | N_classify_claim => classify_claim
  | N_research_with_tavily => research_with_tavily
  | N_assess_claim => assess_claim
  | N_finalize => finalize
  | N_END => mret
  end.

(** The edges out of a node, the conditional one included; the state is
    the one the node returned. *)
Definition next_node (n : node) (state : AgentState) : node :=
  match n with
  | N_classify_claim => route_from_classify state
  | N_research_with_tavily => N_assess_claim
  | N_assess_claim => N_finalize
  | N_finalize => N_END
  | N_END => N_END
  end.

(** LangGraph stops a run after [recursion_limit] steps (25 unless
    configured) with [GraphRecursionError]. *)
Definition recursion_limit : nat := 25.

Fixpoint GRAPH_run (steps : nat) (n : node) (state : AgentState)
    : M AgentState :=
  match n with
  | N_END => mret state
  | _ =>
      match steps with
      | O => raise GraphRecursionError
      | S steps' =>
          state' ← node_action n state;
          GRAPH_run steps' (next_node n state') state'
      end
  end.

(** [GRAPH.invoke(init_state, ...)]: the edge from [START] leads to
    [classify_claim]. The tracer callback and the checkpointer (both
    marked optional in the source) observe the run and are left out: an
    invocation starts from the state it is given. *)
Definition GRAPH_invoke (init_state : AgentState) : M AgentState :=
  GRAPH_run recursion_limit N_classify_claim init_state.

(** *** [run_agent] *)

(** The response built from the final state. *)
Definition response_of (final_state : AgentState) : pydict :=
  if Py.eq_str (Py.get final_state "verdict") "not_a_claim" then
    {[ "status" := PStr "not_a_claim";
       "reason" := Py.get final_state "explanation" ]}
  else
    {[ "status" := PStr "fact_checked";
       "verdict" := Py.get final_state "verdict";
       "explanation" := Py.get final_state "explanation";
       "citations" := Py.get final_state "citations" ]}.

Definition init_state (text : string) : AgentState :=
  {[ "input_text" := PStr text ]}.

Definition run_agent (text : string) : M pydict :=
  final_state ← GRAPH_invoke (init_state text);
  mret (response_of final_state).

(** The state that reaches [assess_claim] when the text was judged a
    claim and the search gave [research]. *)
Definition state_after_research (text : string) (judged : ClaimJudge)
    (research : list pydict) : AgentState :=
  <["research" := PDicts research]>
    (<["claim_reason" := reason_value (cj_reason judged)]>
       (<["is_claim" := PBool true]> (init_state text))).



(** ** Running computations *)

(** The sum monad, unfolded. *)
Lemma res_bind_inr {A B} (k : A → exn + B) (a : A) : (inr a ≫= k) = k a.
Proof. done. Qed.
Lemma res_bind_inl {A B} (k : A → exn + B) (e : exn) : (inl e ≫= k) = inl e.
Proof. done. Qed.
Lemma res_bind_inv {A B} (k : A → exn + B) (m : exn + A) (b : B) :
  (m ≫= k) = inr b → ∃ a, m = inr a ∧ k a = inr b.
Proof. destruct m as [e|a]; [done|]. eauto. Qed.

Lemma bind_ok {A B} (m : M A) (k : A → M B) w a w' :
  m w = (inr a, w') → (m ≫= k) w = k a w'.
Proof. unfold mbind, M_bind. by intros ->. Qed.

Lemma bind_err {A B} (m : M A) (k : A → M B) w e w' :
  m w = (inl e, w') → (m ≫= k) w = (inl e, w').
Proof. unfold mbind, M_bind. by intros ->. Qed.

Lemma bind_inv {A B} (m : M A) (k : A → M B) w b w' :
  (m ≫= k) w = (inr b, w') → ∃ a w1, m w = (inr a, w1) ∧ k a w1 = (inr b, w').
Proof.
  unfold mbind, M_bind. destruct (m w) as [[e|a] w1]; [done|]. eauto.
Qed.

Lemma except_ok {A} (m : M A) (h : exn → M A) w a w' :
  m w = (inr a, w') → except_ValidationError m h w = (inr a, w').
Proof. unfold except_ValidationError. by intros ->. Qed.

Lemma except_caught {A} (m : M A) (h : exn → M A) w model errs w' :
  m w = (inl (ValidationError model errs), w') →
  except_ValidationError m h w = h (ValidationError model errs) w'.
Proof. unfold except_ValidationError. by intros ->. Qed.

(** Reading an entry of a state that is a chain of insertions. *)
Ltac lookup_in state := unfold Py.get, state; by simplify_map_eq.

(** One step of a computation whose outcome [H] gives. *)
Ltac step_ok H := rewrite (bind_ok _ _ _ _ _ H).

(** What one call to the text-generation service does to the world. *)
Lemma generate_content_run model user_part temperature w :
  ∃ w', generate_content model user_part temperature w
        = (match model_reply w (n_generate w) with
           | GenText t => inr t
           | GenRaises e => inl e
           end, w') ∧
        model_reply w' = model_reply w ∧ search_reply w' = search_reply w ∧
        n_generate w' = S (n_generate w) ∧ n_search w' = n_search w ∧
        trace w' = trace w ++ [EvGenerate model user_part temperature].
Proof.
  unfold generate_content.
  destruct (model_reply w (n_generate w)); eexists; (split; [reflexivity|done]).
Qed.

Lemma sleep_run seconds w :
  ∃ w', sleep seconds w = (inr tt, w') ∧
        model_reply w' = model_reply w ∧ search_reply w' = search_reply w ∧
        n_generate w' = n_generate w ∧ n_search w' = n_search w ∧
        trace w' = trace w ++ [EvSleep seconds].
Proof. unfold sleep. eexists. split; [reflexivity|done]. Qed.

(** ** Properties of [gemini_json] *)



(** When every remaining attempt fails to decode, the loop ends in the
    last attempt's decode error. [todo] attempts remain and the last of
    them is the one numbered [retries]. *)
Lemma gemini_attempts_exhaust model prompt temperature retries todo attempt
    user_part w :
  attempt + Z.of_nat todo = retries →
  (∀ i, (i ≤ todo)%nat → undecodable_reply w i) →
  ∃ t w',
    model_reply w (n_generate w + todo)%nat = GenText t ∧
    gemini_attempts model prompt temperature retries (S todo) attempt
      user_part w = (inl (JSONDecodeError (clean_response t)), w') ∧
    n_generate w' = (n_generate w + S todo)%nat ∧
    trace w' = trace w ++ EvGenerate model user_part temperature
                 :: concat (replicate todo (retry_events model prompt temperature)).
Proof.
  revert attempt user_part w. induction todo as [|todo IH];
    intros attempt user_part w Hlast Hall; cbn [gemini_attempts].
  - destruct (Hall 0%nat) as (t & Ht & Hbad); [lia|].
    destruct (generate_content_run model user_part temperature w)
      as (w1 & Hgen & _ & _ & Hg1 & _ & Htr1).
    rewrite Nat.add_0_r in Ht |- *.
    rewrite Ht in Hgen. rewrite (bind_ok _ _ _ _ _ Hgen), Hbad.
    replace (attempt =? retries) with true by (symmetry; apply Z.eqb_eq; lia).
    exists t, w1. split_and!; [done|done|lia|done].
  - destruct (Hall 0%nat) as (t0 & Ht0 & Hbad0); [lia|].
    destruct (generate_content_run model user_part temperature w)
      as (w1 & Hgen & Hm1 & _ & Hg1 & _ & Htr1).
    rewrite Nat.add_0_r in Ht0.
    rewrite Ht0 in Hgen. rewrite (bind_ok _ _ _ _ _ Hgen), Hbad0.
    replace (attempt =? retries) with false by (symmetry; apply Z.eqb_neq; lia).
    destruct (sleep_run (3 # 10) w1) as (w2 & Hsl & Hm2 & _ & Hg2 & _ & Htr2).
    step_ok Hsl.
    destruct (IH (attempt + 1) (tightened prompt) w2) as (t & w' & Ht & Hrun & Hg & Htr).
    { lia. }
    { intros i Hi. destruct (Hall (S i)) as (ti & Hti & Hbadi); [lia|].
      exists ti. split; [|done]. rewrite Hm2, Hm1, Hg2, Hg1, <-Hti. f_equal. lia. }
    exists t, w'. split_and!.
    + rewrite <-Ht, Hm2, Hm1, Hg2, Hg1. f_equal. lia.
    + exact Hrun.
    + lia.
    + rewrite Htr, Htr2, Htr1. cbn [replicate concat retry_events].
      by rewrite <-!app_assoc.
Qed.

(** C2, as the code has it. For a retry budget [retries >= 0]: when each
    of the [retries + 1] responses is a text that fails to decode after
    trimming and fence stripping, [gemini_json] makes exactly
    [retries + 1] calls (the first with the prompt, the others after a
    pause and with the tightened prompt) and fails with the decode error
    of the last attempt, whose document is the cleaned text of the last
    response. *)
Theorem gemini_json_exhausts_retries (model prompt : string) (temperature : Q)
    (retries : Z) (w : World) :
  0 ≤ retries →
  (∀ i, (i ≤ Z.to_nat retries)%nat → undecodable_reply w i) →
  ∃ last w',
    model_reply w (n_generate w + Z.to_nat retries)%nat = GenText last ∧
    gemini_json model prompt temperature retries w
    = (inl (JSONDecodeError (clean_response last)), w') ∧
    n_generate w' = (n_generate w + Z.to_nat retries + 1)%nat ∧
    trace w' = trace w ++ EvGenerate model prompt temperature
                 :: concat (replicate (Z.to_nat retries)
                              (retry_events model prompt temperature)).
Proof.
  intros Hretries Hall. unfold gemini_json.
  replace (Z.to_nat (retries + 1)) with (S (Z.to_nat retries)) by lia.
  destruct (gemini_attempts_exhaust model prompt temperature retries
              (Z.to_nat retries) 0 prompt w) as (t & w' & Ht & Hrun & Hg & Htr);
    [lia|done|].
  exists t, w'. split_and!; [done|done|lia|done].
Qed.

(** ** Properties of the two contracts *)



Lemma VerdictOut_new_inr kwargs v :
  VerdictOut_new (PDict kwargs) = inr v →
  Pydantic.required
    (Pydantic.validate_literal ["true"; "false"; "unsubstantiated"])
    kwargs "verdict" = inr (vo_verdict v) ∧
  Pydantic.required (Pydantic.validate_str_max 600) kwargs "explanation"
  = inr (vo_explanation v) ∧
  Pydantic.optional Pydantic.validate_list_dict_str [] kwargs "citations"
  = inr (vo_citations v).
Proof.
  unfold VerdictOut_new. cbn [Pydantic.kwargs_of]. rewrite res_bind_inr.
  destruct (Pydantic.required _ kwargs "verdict") as [|x],
    (Pydantic.required _ kwargs "explanation") as [|y],
    (Pydantic.optional _ _ kwargs "citations") as [|z]; try done.
  by intros [= <-].
Qed.

(** A validated verdict is one of the three literals. *)
Lemma VerdictOut_new_verdict raw v :
  VerdictOut_new raw = inr v →
  vo_verdict v ∈ ["true"; "false"; "unsubstantiated"].
Proof.
  destruct raw as [| | | | | |kwargs]; try done.
  intros (Hv & _ & _)%VerdictOut_new_inr. unfold Pydantic.required in Hv.
  destruct (kwargs !! "verdict") as [x|]; [|done].
  destruct x as [| | | |s| |]; try done. cbn [Pydantic.validate_literal] in Hv.
  case_bool_decide; [|done]. by simplify_eq.
Qed.

(** C4. A verdict object whose [verdict] is a string other than [true],
    [false] and [unsubstantiated] (such as [maybe]) does not validate:
    building [VerdictOut] from it raises a [ValidationError] that names
    the field. *)
Theorem VerdictOut_rejects_unknown_verdict (kwargs : pydict) (s : string) :
  kwargs !! "verdict" = Some (PStr s) →
  s ∉ ["true"; "false"; "unsubstantiated"] →
  ∃ errors,
    VerdictOut_new (PDict kwargs) = inl (ValidationError "VerdictOut" errors) ∧
    ("verdict", "literal_error") ∈ errors.
Proof.
  intros Hv Hs.
  assert (Pydantic.required
            (Pydantic.validate_literal ["true"; "false"; "unsubstantiated"])
            kwargs "verdict" = inl [("verdict", "literal_error")]) as Hreq.
  { unfold Pydantic.required. rewrite Hv. cbn [Pydantic.validate_literal].
    by rewrite bool_decide_eq_false_2. }
  unfold VerdictOut_new. cbn [Pydantic.kwargs_of].
  rewrite res_bind_inr. cbv zeta. rewrite Hreq.
  eexists. split; [reflexivity|]. cbn [Pydantic.errors_of app].
  apply list_elem_of_here.
Qed.


(** ** Properties of the nodes *)

Lemma getitem_run (state : pydict) k v w :
  state !! k = Some v → lift (Py.getitem state k) w = (inr v, w).
Proof. unfold lift, Py.getitem. by intros ->. Qed.

Lemma lift_run {A} (r : exn + A) w : lift r w = (r, w).
Proof. done. Qed.


Lemma classify_claim_is_claim (state : pydict) text w raw judged w1 :
  state !! "input_text" = Some text →
  gemini_json GEMINI_CLASSIFY_MODEL (classify_prompt text) (1 # 10) 2 w
  = (inr raw, w1) →
  ClaimJudge_new raw = inr judged →
  cj_is_claim judged = true →
  classify_claim state w
  = (inr (<["claim_reason" := reason_value (cj_reason judged)]>
            (<["is_claim" := PBool true]> state)), w1).
Proof.
  intros Htext Hraw Hjudged Hyes. unfold classify_claim.
  step_ok (getitem_run _ _ _ w Htext).
  step_ok Hraw.
  erewrite bind_ok; [|apply except_ok; rewrite lift_run, Hjudged; done].
  by rewrite Hyes.
Qed.

Lemma classify_claim_invalid (state : pydict) text w raw model errors w1 :
  state !! "input_text" = Some text →
  gemini_json GEMINI_CLASSIFY_MODEL (classify_prompt text) (1 # 10) 2 w
  = (inr raw, w1) →
  ClaimJudge_new raw = inl (ValidationError model errors) →
  classify_claim state w
  = (inl (RuntimeError ("classify_claim JSON failed validation: "
                        +:+ ValidationError_str model errors)), w1).
Proof.
  intros Htext Hraw Hjudged. unfold classify_claim.
  step_ok (getitem_run _ _ _ w Htext).
  step_ok Hraw.
  erewrite bind_err; [done|].
  erewrite except_caught; [|rewrite lift_run, Hjudged; done]. done.
Qed.

Lemma research_with_tavily_run (state : pydict) text w res w2 research :
  state !! "input_text" = Some text →
  tavily_search text 6 w = (inr res, w2) →
  normalize_research (Py.get_or res "results" (PList [])) = inr research →
  research_with_tavily state w
  = (inr (<["research" := PDicts research]> state), w2).
Proof.
  intros Htext Hres Hnorm. unfold research_with_tavily.
  step_ok (getitem_run _ _ _ w Htext).
  step_ok Hres.
  erewrite bind_ok; [|rewrite lift_run, Hnorm; done]. done.
Qed.

Lemma assess_claim_invalid (state : pydict) text w raw model errors w1 :
  state !! "input_text" = Some text →
  gemini_json GEMINI_ASSESS_MODEL
    (assess_prompt text (json_dumps (Py.get_or state "research" (PList []))))
    (2 # 10) 2 w = (inr raw, w1) →
  VerdictOut_new raw = inl (ValidationError model errors) →
  assess_claim state w
  = (inl (RuntimeError ("assess_claim JSON failed validation: "
                        +:+ ValidationError_str model errors)), w1).
Proof.
  intros Htext Hraw Hverdict. unfold assess_claim.
  step_ok (getitem_run _ _ _ w Htext).
  step_ok Hraw.
  erewrite bind_err; [done|].
  erewrite except_caught; [|rewrite lift_run, Hverdict; done]. done.
Qed.

Lemma citations_of_pairs (research : list pydict) :
  citations_of (PDict <$> research) = inr (title_url_pair <$> research).
Proof.
  induction research as [|r research IH]; [done|].
  rewrite !fmap_cons. cbn [citations_of citation_of mbind mret res_bind res_ret].
  by rewrite IH.
Qed.

(** The state [assess_claim] returns when the validated verdict has no
    citations: they are rebuilt from the research list. *)
Lemma assess_claim_fallback (state : pydict) text w raw verdict research w1 :
  state !! "input_text" = Some text →
  state !! "research" = Some (PDicts research) →
  gemini_json GEMINI_ASSESS_MODEL
    (assess_prompt text (json_dumps (PDicts research))) (2 # 10) 2 w
  = (inr raw, w1) →
  VerdictOut_new raw = inr verdict →
  vo_citations verdict = [] →
  assess_claim state w
  = (inr (<["citations" := PList (title_url_pair <$> research)]>
            (<["explanation" := PStr (vo_explanation verdict)]>
               (<["verdict" := PStr (vo_verdict verdict)]> state))), w1).
Proof.
  intros Htext Hresearch Hraw Hverdict Hnone. unfold assess_claim.
  assert (Py.get_or state "research" (PList []) = PDicts research) as ->.
  { unfold Py.get_or. by rewrite Hresearch. }
  step_ok (getitem_run _ _ _ w Htext).
  step_ok Hraw.
  erewrite bind_ok; [|apply except_ok; rewrite lift_run, Hverdict; done].
  rewrite Hnone.
  assert (Py.get_or
            (<["explanation" := PStr (vo_explanation verdict)]>
               (<["verdict" := PStr (vo_verdict verdict)]> state))
            "research" (PList []) = PDicts research) as ->.
  { unfold Py.get_or. by rewrite !lookup_insert_ne, Hresearch. }
  erewrite bind_ok; [done|].
  erewrite bind_ok; [|by rewrite lift_run].
  erewrite bind_ok; [done|]. by rewrite lift_run, citations_of_pairs.
Qed.

(** ** Properties of the graph and of [run_agent] *)

Lemma GRAPH_run_step steps n (state : pydict) :
  n ≠ N_END →
  GRAPH_run (S steps) n state
  = node_action n state ≫= λ state', GRAPH_run steps (next_node n state') state'.
Proof. by destruct n. Qed.

Lemma GRAPH_run_finalize steps (state : pydict) w :
  GRAPH_run (S (S steps)) N_finalize state w = (inr state, w).
Proof. done. Qed.

(** An exception raised by a node ends the run and is what the caller
    of [run_agent] gets. *)
Lemma GRAPH_run_raises steps n (state : pydict) w e w' :
  node_action n state w = (inl e, w') →
  GRAPH_run (S steps) n state w = (inl e, w').
Proof.
  intros Hnode. destruct n; try (cbn [GRAPH_run]; by erewrite bind_err).
  by cbn in Hnode.
Qed.

Lemma run_agent_raises text w e w' :
  GRAPH_invoke (init_state text) w = (inl e, w') →
  run_agent text w = (inl e, w').
Proof. intros H. unfold run_agent. by erewrite bind_err. Qed.

Lemma init_state_text text : init_state text !! "input_text" = Some (PStr text).
Proof. unfold init_state. by simplify_map_eq. Qed.



(** A run on a text judged a claim, up to the point where
    [assess_claim] starts. *)
Lemma GRAPH_invoke_reaches_assess text w raw judged w1 res w2 research :
  gemini_json GEMINI_CLASSIFY_MODEL (classify_prompt (PStr text)) (1 # 10) 2 w
  = (inr raw, w1) →
  ClaimJudge_new raw = inr judged →
  cj_is_claim judged = true →
  tavily_search (PStr text) 6 w1 = (inr res, w2) →
  normalize_research (Py.get_or res "results" (PList [])) = inr research →
  GRAPH_invoke (init_state text) w
  = GRAPH_run 23 N_assess_claim (state_after_research text judged research) w2.
Proof.
  intros Hraw Hjudged Hyes Hres Hnorm.
  pose proof (classify_claim_is_claim _ _ _ _ _ _ (init_state_text text)
                Hraw Hjudged Hyes) as Hclassify.
  set (st1 := <["claim_reason" := _]> _) in Hclassify.
  assert (st1 !! "input_text" = Some (PStr text)) as Htext.
  { unfold st1, init_state. by simplify_map_eq. }
  pose proof (research_with_tavily_run _ _ _ _ _ _ Htext Hres Hnorm) as Hsearch.
  unfold GRAPH_invoke, recursion_limit. rewrite GRAPH_run_step by done.
  cbn [node_action]. step_ok Hclassify.
  cbn [next_node]. unfold route_from_classify.
  assert (Py.get st1 "is_claim" = PBool true) as ->.
  { lookup_in st1. }
  cbn [Py.truthy]. rewrite GRAPH_run_step by done.
  cbn [node_action]. by step_ok Hsearch.
Qed.

Lemma state_after_research_text text judged research :
  state_after_research text judged research !! "input_text" = Some (PStr text).
Proof. unfold state_after_research, init_state. by simplify_map_eq. Qed.

Lemma state_after_research_research text judged research :
  state_after_research text judged research !! "research"
  = Some (PDicts research).
Proof. unfold state_after_research. by simplify_map_eq. Qed.

(** C3, as the code has it. A [ValidationError] does not reach the
    caller as it is: each of the two nodes catches it and raises a
    [RuntimeError] whose message is the node's prefix followed by the
    text of the validation error, and that [RuntimeError] is what
    [run_agent] raises. No response is returned, so no verdict is made
    up. The first part is the classification stage, the second the
    assessment stage. *)
Theorem validation_failure_raises_RuntimeError (text : string) (w : World) :
  (∀ raw w1 model errors,
     gemini_json GEMINI_CLASSIFY_MODEL (classify_prompt (PStr text)) (1 # 10) 2 w
     = (inr raw, w1) →
     ClaimJudge_new raw = inl (ValidationError model errors) →
     run_agent text w
     = (inl (RuntimeError ("classify_claim JSON failed validation: "
                           +:+ ValidationError_str model errors)), w1)) ∧
  (∀ raw1 judged w1 res w2 research raw2 w3 model errors,
     gemini_json GEMINI_CLASSIFY_MODEL (classify_prompt (PStr text)) (1 # 10) 2 w
     = (inr raw1, w1) →
     ClaimJudge_new raw1 = inr judged →
     cj_is_claim judged = true →
     tavily_search (PStr text) 6 w1 = (inr res, w2) →
     normalize_research (Py.get_or res "results" (PList [])) = inr research →
     gemini_json GEMINI_ASSESS_MODEL
       (assess_prompt (PStr text) (json_dumps (PDicts research))) (2 # 10) 2 w2
     = (inr raw2, w3) →
     VerdictOut_new raw2 = inl (ValidationError model errors) →
     run_agent text w
     = (inl (RuntimeError ("assess_claim JSON failed validation: "
                           +:+ ValidationError_str model errors)), w3)).
Proof.
  split.
  - intros raw w1 model errors Hraw Hinvalid.
    apply run_agent_raises. unfold GRAPH_invoke, recursion_limit.
    apply GRAPH_run_raises. cbn [node_action].
    by eapply classify_claim_invalid; [apply init_state_text|..].
  - intros raw1 judged w1 res w2 research raw2 w3 model errors
      Hraw1 Hjudged Hyes Hres Hnorm Hraw2 Hinvalid.
    apply run_agent_raises.
    rewrite (GRAPH_invoke_reaches_assess _ _ _ _ _ _ _ _
               Hraw1 Hjudged Hyes Hres Hnorm).
    apply GRAPH_run_raises. cbn [node_action].
    eapply assess_claim_invalid; [apply state_after_research_text| |done].
    unfold Py.get_or. by rewrite state_after_research_research.
Qed.

(** C5. When the text is judged a claim and the validated verdict comes
    with no citations, the response of [run_agent] carries as citations
    the [{title, url}] pairs of the research items, one per item and in
    the order of the research list (which is the claim for a research
    list that is not empty, and gives no citations for an empty one). *)
Theorem citations_fall_back_to_research (text : string) (w : World)
    (raw1 : pyval) (judged : ClaimJudge) (w1 : World) (res : pydict)
    (w2 : World) (research : list pydict) (raw2 : pyval)
    (verdict : VerdictOut) (w3 : World) :
  gemini_json GEMINI_CLASSIFY_MODEL (classify_prompt (PStr text)) (1 # 10) 2 w
  = (inr raw1, w1) →
  ClaimJudge_new raw1 = inr judged →
  cj_is_claim judged = true →
  tavily_search (PStr text) 6 w1 = (inr res, w2) →
  normalize_research (Py.get_or res "results" (PList [])) = inr research →
  gemini_json GEMINI_ASSESS_MODEL
    (assess_prompt (PStr text) (json_dumps (PDicts research))) (2 # 10) 2 w2
  = (inr raw2, w3) →
  VerdictOut_new raw2 = inr verdict →
  vo_citations verdict = [] →
  run_agent text w
  = (inr {[ "status" := PStr "fact_checked";
            "verdict" := PStr (vo_verdict verdict);
            "explanation" := PStr (vo_explanation verdict);
            "citations" := PList (title_url_pair <$> research) ]}, w3).
Proof.
  intros Hraw1 Hjudged Hyes Hres Hnorm Hraw2 Hverdict Hnone.
  pose proof (assess_claim_fallback _ _ _ _ _ _ _
                (state_after_research_text text judged research)
                (state_after_research_research text judged research)
                Hraw2 Hverdict Hnone) as Hassess.
  set (final_state := <["citations" := _]> _) in Hassess.
  assert (GRAPH_invoke (init_state text) w = (inr final_state, w3)) as Hrun.
  { rewrite (GRAPH_invoke_reaches_assess _ _ _ _ _ _ _ _
               Hraw1 Hjudged Hyes Hres Hnorm).
    rewrite GRAPH_run_step by done. cbn [node_action].
    step_ok Hassess. cbn [next_node].
    apply GRAPH_run_finalize. }
  unfold run_agent. step_ok Hrun. unfold response_of.
  assert (Py.get final_state "verdict" = PStr (vo_verdict verdict)) as ->.
  { lookup_in final_state. }
  assert (Py.get final_state "explanation" = PStr (vo_explanation verdict)) as ->.
  { lookup_in final_state. }
  assert (Py.get final_state "citations" = PList (title_url_pair <$> research)) as ->.
  { lookup_in final_state. }
  assert (Py.eq_str (PStr (vo_verdict verdict)) "not_a_claim" = false) as ->; [|done].
  apply VerdictOut_new_verdict in Hverdict.
  cbn [Py.eq_str]. apply String.eqb_neq. intros Heq. rewrite Heq in Hverdict.
  by repeat (apply elem_of_cons in Hverdict as [?|Hverdict]; [done|]);
    apply elem_of_nil in Hverdict.
Qed.

(** ** Properties of the normalizer *)

Lemma or_truthy a b : Py.truthy a = true → Py.or a b = a.
Proof. unfold Py.or. by intros ->. Qed.

Lemma or_falsy a b : Py.truthy a = false → Py.or a b = b.
Proof. unfold Py.or. by intros ->. Qed.

Lemma truthy_PStr s : Py.truthy (PStr s) = false → s = "".
Proof.
  simpl. destruct (String.eqb_spec s ""); [done|]. discriminate.
Qed.

(** [x or ""] is a truthy value or the empty string. *)
Lemma or_empty_cases a :
  (Py.truthy a = true ∧ Py.or a (PStr "") = a) ∨
  (Py.truthy a = false ∧ Py.or a (PStr "") = PStr "").
Proof. unfold Py.or. destruct (Py.truthy a); auto. Qed.

Lemma str_take_idemp n s : Py.str_take n (Py.str_take n s) = Py.str_take n s.
Proof.
  revert s. induction n as [|n IH]; intros [|c s]; simpl; try done.
  by rewrite IH.
Qed.

Lemma str_take_length n s : (String.length (Py.str_take n s) ≤ n)%nat.
Proof.
  revert s. induction n as [|n IH]; intros [|c s]; simpl; try lia.
  specialize (IH s). lia.
Qed.

Lemma item_lookup_title (t u s : pyval) :
  Py.get ({[ "title" := t; "url" := u; "snippet" := s ]} : pydict) "title" = t.
Proof. unfold Py.get. by simplify_map_eq. Qed.
Lemma item_lookup_url (t u s : pyval) :
  Py.get ({[ "title" := t; "url" := u; "snippet" := s ]} : pydict) "url" = u.
Proof. unfold Py.get. by simplify_map_eq. Qed.
Lemma item_lookup_snippet (t u s : pyval) :
  Py.get ({[ "title" := t; "url" := u; "snippet" := s ]} : pydict) "snippet" = s.
Proof. unfold Py.get. by simplify_map_eq. Qed.
Lemma item_lookup_content (t u s : pyval) :
  Py.get ({[ "title" := t; "url" := u; "snippet" := s ]} : pydict) "content" = PNone.
Proof. unfold Py.get. by simplify_map_eq. Qed.

Lemma normalize_hit_fixed r item :
  normalize_hit r = inr item → normalize_hit (PDict item) = inr item.
Proof.
  destruct r as [| | | | | |d]; try discriminate. simpl.
  set (src := Py.or (Py.or _ _) _).
  set (t := Py.or (Py.get d "title") _).
  set (u := Py.or (Py.get d "url") _).
  destruct (Py.slice_to 600 src) as [e|s] eqn:Hs; simpl; [discriminate|].
  intros [= <-].
  rewrite item_lookup_title, item_lookup_url, item_lookup_snippet, item_lookup_content.
  assert (Py.or t (PStr "(no title)") = t) as ->.
  { subst t. unfold Py.or. destruct (Py.truthy (Py.get d "title")) eqn:E; by rewrite ?E. }
  assert (Py.or u (PStr "") = u) as ->.
  { subst u. unfold Py.or. destruct (Py.truthy (Py.get d "url")) eqn:E; by rewrite ?E. }
  assert (Py.slice_to 600 (Py.or (Py.or PNone s) (PStr "")) = inr s) as ->; [|done].
  rewrite (or_falsy PNone) by done.
  destruct (or_empty_cases (Py.or (Py.get d "content") (Py.get d "snippet")))
    as [[Ht Hsrc]|[_ Hsrc]]; fold src in Hsrc.
  - rewrite Hsrc in Hs.
    destruct (Py.or (Py.get d "content") (Py.get d "snippet")) as [| | | |x|l|];
      cbn [Py.slice_to] in Hs; simplify_eq.
    + destruct (or_empty_cases (PStr (Py.str_take 600 x))) as [[_ ->]|[Hf ->]];
        cbn [Py.slice_to].
      * by rewrite str_take_idemp.
      * by rewrite (truthy_PStr _ Hf).
    + destruct l as [|y l]; [done|].
      rewrite or_truthy by done. cbn [Py.slice_to]. by rewrite take_take.
  - rewrite Hsrc in Hs. cbn [Py.slice_to] in Hs. by simplify_eq.
Qed.

Lemma normalize_hits_inv l out :
  normalize_hits l = inr out → Forall2 (λ r item, normalize_hit r = inr item) l out.
Proof.
  revert out. induction l as [|r l IH]; intros out; simpl.
  - intros [= <-]. constructor.
  - intros (item & Hitem & (out' & Hout & [= <-])%res_bind_inv)%res_bind_inv.
    constructor; auto.
Qed.

Lemma normalize_hits_intro l out :
  Forall2 (λ r item, normalize_hit r = inr item) l out → normalize_hits l = inr out.
Proof.
  induction 1 as [|r item l out Hr _ IH]; [done|].
  cbn [normalize_hits]. rewrite Hr, res_bind_inr, IH. done.
Qed.

Lemma normalize_hits_normalized l out :
  normalize_hits l = inr out → Forall normalized out.
Proof.
  intros H%normalize_hits_inv. induction H as [|r item l out Hr _ IH]; constructor; auto.
  by eapply normalize_hit_fixed.
Qed.

Lemma normalize_hits_fixed out :
  Forall normalized out → normalize_hits (PDict <$> out) = inr out.
Proof.
  intros H. apply normalize_hits_intro.
  induction H; constructor; auto.
Qed.

Lemma dedup_by_url_sublist seen l out :
  dedup_by_url seen l = inr out → sublist out l.
Proof.
  revert seen out. induction l as [|r l IH]; intros seen out; cbn [dedup_by_url].
  - by intros [= <-].
  - intros (u & _ & (k & _ & H)%res_bind_inv)%res_bind_inv.
    destruct (Py.key_in k seen).
    + apply sublist_cons, (IH _ _ H).
    + apply res_bind_inv in H as (d & Hd & [= <-]).
      apply sublist_skip, (IH _ _ Hd).
Qed.

Lemma dedup_by_url_fixed seen l out :
  dedup_by_url seen l = inr out → dedup_by_url seen out = inr out.
Proof.
  revert seen out. induction l as [|r l IH]; intros seen out; cbn [dedup_by_url].
  - by intros [= <-].
  - intros (u & Hu & (k & Hk & H)%res_bind_inv)%res_bind_inv.
    destruct (Py.key_in k seen) eqn:Hin.
    + eauto.
    + apply res_bind_inv in H as (d & Hd & [= <-]).
      cbn [dedup_by_url]. rewrite Hu, res_bind_inr, Hk, res_bind_inr, Hin.
      by rewrite (IH _ _ Hd).
Qed.

Lemma normalize_research_PDicts out :
  Forall normalized out →
  normalize_research (PDicts out) = normalize_hits (PDict <$> out) ≫= dedup_by_url [].
Proof.
  intros _. unfold normalize_research, PDicts.
  destruct out as [|r out]; [done|]. by rewrite or_truthy.
Qed.

(** C6. The normalizer is idempotent: normalizing what it returned gives
    the same list again. An input on which it raises has no output to
    normalize, and both sides are that exception. *)
Theorem normalize_research_idempotent (items : pyval) :
  (normalize_research items ≫= λ out, normalize_research (PDicts out))
  = normalize_research items.
Proof.
  destruct (normalize_research items) as [e|out] eqn:Hrun; [done|].
  rewrite res_bind_inr.
  unfold normalize_research in Hrun.
  apply res_bind_inv in Hrun as (todo & _ & (mapped & Hmap & Hdedup)%res_bind_inv).
  assert (Forall normalized out) as Hnorm.
  { apply normalize_hits_normalized in Hmap.
    apply dedup_by_url_sublist, sublist_subseteq in Hdedup.
    rewrite Forall_forall in Hmap |- *. auto. }
  rewrite normalize_research_PDicts, normalize_hits_fixed, res_bind_inr by done.
  by eapply dedup_by_url_fixed.
Qed.

Lemma filter_imap_reindex {A} (P Q : nat * A → Prop)
    `{!∀ p, Decision (P p), !∀ p, Decision (Q p)} (g h : nat → nat) (l : list A) :
  (∀ i x, P (g i, x) ↔ Q (h i, x)) →
  (filter P (imap (λ i x, (g i, x)) l)).*2 = (filter Q (imap (λ i x, (h i, x)) l)).*2.
Proof.
  revert g h. induction l as [|x l IH]; intros g h HPQ; [done|].
  rewrite !imap_cons, !filter_cons.
  assert ((filter P (imap ((λ i y, (g i, y)) ∘ S) l)).*2
          = (filter Q (imap ((λ i y, (h i, y)) ∘ S) l)).*2) as Hrest.
  { apply (IH (g ∘ S) (h ∘ S)). intros i y. apply HPQ. }
  pose proof (HPQ 0%nat x) as Hhead.
  destruct (decide (P (g 0%nat, x))) as [HP|HP], (decide (Q (h 0%nat, x))) as [HQ|HQ];
    rewrite ?fmap_cons, ?Hrest; tauto.
Qed.

Lemma key_eqb_eq k1 k2 : Py.key_eqb k1 k2 = true → k1 = k2.
Proof. destruct k1; simpl; try done; by intros ?%bool_decide_eq_true. Qed.

Lemma unseen_snoc before e r :
  unseen (before ++ [e]) r = unseen before r && negb (same_url r e).
Proof. unfold unseen. rewrite forallb_app. simpl. by rewrite andb_true_r. Qed.

Lemma seen_covers_skip seen before e k :
  url_key e = Some k → Py.key_in k seen = true →
  seen_covers seen before → seen_covers seen (before ++ [e]).
Proof.
  intros He Hin Hcov r k' Hr. rewrite unseen_snoc, negb_andb, negb_involutive.
  rewrite <-(Hcov r k' Hr). unfold same_url. rewrite Hr, He.
  destruct (Py.key_eqb k' k) eqn:Heq; [|by rewrite orb_false_r].
  apply key_eqb_eq in Heq as ->. by rewrite Hin.
Qed.

Lemma seen_covers_add seen before e k :
  url_key e = Some k →
  seen_covers seen before → seen_covers (k :: seen) (before ++ [e]).
Proof.
  intros He Hcov r k' Hr. rewrite unseen_snoc, negb_andb, negb_involutive.
  rewrite <-(Hcov r k' Hr). unfold same_url. rewrite Hr, He. simpl.
  apply orb_comm.
Qed.

Lemma url_key_Some r u k :
  Py.getitem r "url" = inr u → Py.hash_key u = inr k → url_key r = Some k.
Proof.
  unfold Py.getitem, url_key. destruct (r !! "url"); [|done].
  intros [= ->] ->. done.
Qed.

Lemma keep_first_occurrences_cons before r l :
  (filter (λ p, unseen (before ++ take p.1 (r :: l)) p.2 = true) (imap pair (r :: l))).*2
  = (if unseen before r then [r] else [])
    ++ (filter (λ p, unseen ((before ++ [r]) ++ take p.1 l) p.2 = true) (imap pair l)).*2.
Proof.
  rewrite imap_cons, filter_cons. cbn [fst snd take]. rewrite app_nil_r.
  assert ((filter (λ p, unseen (before ++ take p.1 (r :: l)) p.2 = true)
            (imap (pair ∘ S) l)).*2
          = (filter (λ p, unseen ((before ++ [r]) ++ take p.1 l) p.2 = true)
               (imap pair l)).*2) as Hrest.
  { apply (filter_imap_reindex _ _ S id). intros i x. cbn [fst snd take].
    by rewrite <-app_assoc. }
  destruct (unseen before r); case_decide; try done; by rewrite ?fmap_cons, Hrest.
Qed.

Lemma dedup_by_url_first_occurrences seen before l out :
  seen_covers seen before →
  dedup_by_url seen l = inr out →
  out = (filter (λ p, unseen (before ++ take p.1 l) p.2 = true) (imap pair l)).*2.
Proof.
  revert seen before out. induction l as [|r l IH]; intros seen before out Hcov;
    cbn [dedup_by_url].
  - by intros [= <-].
  - intros (u & Hu & (k & Hk & H)%res_bind_inv)%res_bind_inv.
    pose proof (url_key_Some _ _ _ Hu Hk) as Hr.
    rewrite keep_first_occurrences_cons.
    pose proof (Hcov r k Hr) as Hin.
    destruct (Py.key_in k seen) eqn:Hseen.
    + symmetry in Hin. apply negb_true_iff in Hin. rewrite Hin. cbn [app].
      eapply IH; [|done]. by eapply seen_covers_skip.
    + symmetry in Hin. apply negb_false_iff in Hin. rewrite Hin.
      apply res_bind_inv in H as (d & Hd & [= <-]). cbn [app]. f_equal.
      eapply IH; [|done]. by eapply seen_covers_add.
Qed.

Lemma seen_covers_nil : seen_covers [] [].
Proof. by intros r k _. Qed.

Lemma dedup_by_url_keep_first l out :
  dedup_by_url [] l = inr out → out = keep_first_occurrences l.
Proof. apply (dedup_by_url_first_occurrences [] []), seen_covers_nil. Qed.

(** For two string urls, having the same url is equality of the strings. *)
Lemma same_url_strings (a b : pydict) (u v : string) :
  a !! "url" = Some (PStr u) → b !! "url" = Some (PStr v) →
  same_url a b = bool_decide (u = v).
Proof.
  intros Ha Hb. unfold same_url, url_key. rewrite Ha, Hb.
  cbn [Py.hash_key Py.key_eqb].
  case_bool_decide as H1; case_bool_decide as H2; congruence.
Qed.

(** C7. The normalizer deduplicates by url: of the items built by the
    first loop, the output keeps exactly those that are the first
    occurrence of their url (no earlier item has the same url), in the
    order they came in. *)
Theorem normalize_research_first_occurrence (items : pyval) (out : list pydict) :
  normalize_research items = inr out →
  ∃ todo mapped,
    Py.iter (Py.or items (PList [])) = inr todo ∧
    normalize_hits todo = inr mapped ∧
    out = keep_first_occurrences mapped.
Proof.
  unfold normalize_research.
  intros (todo & Hiter & (mapped & Hmap & Hdedup)%res_bind_inv)%res_bind_inv.
  exists todo, mapped. eauto using dedup_by_url_keep_first.
Qed.


Lemma text_or_falsy_or a b :
  text_or_falsy a = true → (∃ s, b = PStr s) → ∃ s, Py.or a b = PStr s.
Proof.
  intros Ha [s ->]. unfold Py.or. destruct (Py.truthy a) eqn:Ht; [|eauto].
  assert (negb (Py.truthy a) = false) as Hn by (by rewrite Ht).
  destruct a; cbn [text_or_falsy] in Ha; eauto; congruence.
Qed.

Lemma normalize_hit_well_formed d :
  well_formed_hit d = true → normalize_hit (PDict d) = inr (evidence_item d).
Proof.
  unfold well_formed_hit. intros [[Hu Hc]%andb_true_iff Hs]%andb_true_iff.
  cbn [normalize_hit]. unfold evidence_item.
  assert (text_or_falsy (Py.or (Py.get d "content") (Py.get d "snippet")) = true)
    as Hsrc.
  { unfold Py.or. by destruct (Py.truthy (Py.get d "content")). }
  destruct (text_or_falsy_or _ (PStr "") Hsrc) as [s ->]; [eauto|].
  done.
Qed.

Lemma normalize_hits_well_formed ds :
  forallb well_formed_hit ds = true →
  normalize_hits (PDict <$> ds) = inr (evidence_item <$> ds).
Proof.
  induction ds as [|d ds IH]; [done|]. cbn [forallb].
  intros [Hd Hds]%andb_true_iff. rewrite !fmap_cons. cbn [normalize_hits].
  by rewrite (normalize_hit_well_formed d Hd), res_bind_inr, (IH Hds).
Qed.

Lemma url_key_evidence_item d :
  well_formed_hit d = true → is_Some (url_key (evidence_item d)).
Proof.
  unfold well_formed_hit. intros [[Hu _]%andb_true_iff _]%andb_true_iff.
  destruct (text_or_falsy_or (Py.get d "url") (PStr "") Hu) as [s Hs]; [eauto|].
  unfold url_key, evidence_item. rewrite Hs. simplify_map_eq. by eexists.
Qed.

Lemma dedup_by_url_total seen l :
  Forall (λ r, is_Some (url_key r)) l → ∃ out, dedup_by_url seen l = inr out.
Proof.
  intros H. revert seen. induction H as [|r l [k Hk] _ IH]; intros seen.
  - by eexists.
  - cbn [dedup_by_url]. unfold url_key in Hk. unfold Py.getitem.
    destruct (r !! "url") as [u|]; [|done]. rewrite res_bind_inr.
    destruct (Py.hash_key u) as [|k']; [done|]. rewrite res_bind_inr.
    destruct (Py.key_in k' seen); [apply IH|].
    destruct (IH (k' :: seen)) as [out ->]. by eexists.
Qed.

Lemma snippet_bounded_evidence_item d : snippet_bounded (evidence_item d).
Proof.
  eexists. split; [unfold evidence_item; by simplify_map_eq|].
  apply str_take_length.
Qed.

(** C8, as the code has it. An absent result list ([None]) normalizes
    to the empty list. A list of hits whose url, content and snippet are
    each a string or absent, [None] or otherwise falsy (the title may be
    anything) normalizes without error: every hit is mapped to its
    evidence item (title or the placeholder, url or the empty string, the
    first 600 characters of content or snippet or the empty string), the
    first occurrences by url are kept, and every snippet in the output
    has at most 600 characters. *)
Theorem normalize_research_well_formed (ds : list pydict) :
  forallb well_formed_hit ds = true →
  normalize_research PNone = inr [] ∧
  normalize_research (PDicts ds) = inr (keep_first_occurrences (evidence_item <$> ds)) ∧
  Forall snippet_bounded (keep_first_occurrences (evidence_item <$> ds)).
Proof.
  intros Hwf. split; [done|].
  destruct (dedup_by_url_total [] (evidence_item <$> ds)) as [out Hout].
  { apply Forall_fmap, Forall_forall. intros d Hd. apply url_key_evidence_item.
    rewrite forallb_forall in Hwf. apply Hwf. by apply list_elem_of_In. }
  rewrite <-(dedup_by_url_keep_first _ _ Hout). split.
  - unfold normalize_research, PDicts.
    assert (Py.iter (Py.or (PList (PDict <$> ds)) (PList [])) = inr (PDict <$> ds)) as ->.
    { destruct ds; [done|]. by rewrite or_truthy. }
    by rewrite res_bind_inr, (normalize_hits_well_formed ds Hwf), res_bind_inr.
  - apply dedup_by_url_sublist, sublist_subseteq in Hout.
    apply Forall_forall. intros o [d [-> _]]%Hout%list_elem_of_fmap.
    apply snippet_bounded_evidence_item.
Qed.

Lemma normalize_hit_empty_url r item :
  normalize_hit r = inr item → has_empty_url item = url_less r.
Proof.
  destruct r as [| | | | | |d]; try discriminate. cbn [normalize_hit].
  intros (s & _ & [= <-])%res_bind_inv.
  unfold has_empty_url, url_less. rewrite item_lookup_url.
  unfold Py.or. destruct (Py.truthy (Py.get d "url")) eqn:Ht; [|done].
  destruct (Py.get d "url") as [| | | |u| |]; try done.
  simpl in *. by destruct (String.eqb u "").
Qed.

Lemma num_key_not_str neg m e s : Py.num_key neg m e ≠ Py.KStr s.
Proof. unfold Py.num_key. by destruct (Py.odd_part m e). Qed.

Lemma hash_key_KStr u s : Py.hash_key u = inr (Py.KStr s) → u = PStr s.
Proof.
  destruct u as [|[]|[]|[]| | |]; cbn; intros [= H]; try done;
    try (by apply num_key_not_str in H). by subst.
Qed.

Lemma eq_str_true v s : Py.eq_str v s = true → v = PStr s.
Proof.
  destruct v; try done. simpl. by intros ->%String.eqb_eq.
Qed.

Lemma has_empty_url_key r u k :
  Py.getitem r "url" = inr u → Py.hash_key u = inr k →
  has_empty_url r = bool_decide (k = Py.KStr "").
Proof.
  unfold Py.getitem, has_empty_url, Py.get.
  destruct (r !! "url") as [v|]; [|done]. intros [= ->] Hk. cbn [default].
  case_bool_decide as Heq.
  - subst k. by rewrite (hash_key_KStr _ _ Hk).
  - destruct (Py.eq_str u "") eqn:Hu; [|done].
    apply eq_str_true in Hu as ->. by simplify_eq/=.
Qed.

Lemma key_in_cons k k' seen :
  Py.key_in k (k' :: seen) = Py.key_eqb k k' || Py.key_in k seen.
Proof. done. Qed.

Lemma dedup_by_url_empty_url seen l out :
  dedup_by_url seen l = inr out →
  filter (λ o, has_empty_url o = true) out
  = if Py.key_in (Py.KStr "") seen then []
    else take 1 (filter (λ o, has_empty_url o = true) l).
Proof.
  revert seen out. induction l as [|r l IH]; intros seen out; cbn [dedup_by_url].
  - intros [= <-]. by destruct (Py.key_in _ _).
  - intros (u & Hu & (k & Hk & H)%res_bind_inv)%res_bind_inv.
    pose proof (has_empty_url_key _ _ _ Hu Hk) as Hr.
    rewrite (filter_cons _ r l).
    destruct (Py.key_in k seen) eqn:Hin.
    + rewrite (IH _ _ H). case_bool_decide as Heq.
      * subst k. by rewrite Hin.
      * case_decide; [congruence|done].
    + apply res_bind_inv in H as (d & Hd & [= <-]).
      rewrite filter_cons, (IH _ _ Hd), key_in_cons.
      case_bool_decide as Heq.
      * subst k. rewrite Hin. cbn [Py.key_eqb].
        rewrite bool_decide_eq_true_2 by done. cbn [orb].
        rewrite !decide_True by done. done.
      * replace (Py.key_eqb (Py.KStr "") k) with false.
        2:{ symmetry. cbn [Py.key_eqb]. by apply bool_decide_eq_false_2. }
        cbn [orb]. rewrite !decide_False by congruence. done.
Qed.

(** C10. Hits without a url (absent, empty or falsy) all get the url
    [""] and are deduplicated against each other: when [r] is the first
    such hit of the input, the output has exactly one item with the empty
    url, the one built from [r], whatever follows [r]. *)
Theorem normalize_research_url_less (pre post : list pyval) (r : pyval)
    (out : list pydict) :
  forallb (λ h, negb (url_less h)) pre = true →
  url_less r = true →
  normalize_research (PList (pre ++ r :: post)) = inr out →
  ∃ item, normalize_hit r = inr item ∧
          filter (λ o, has_empty_url o = true) out = [item].
Proof.
  intros Hpre Hr. unfold normalize_research.
  rewrite or_truthy by (by destruct pre). cbn [Py.iter]. rewrite res_bind_inr.
  intros (mapped & Hmap & Hdedup)%res_bind_inv.
  apply normalize_hits_inv, Forall2_app_inv_l in Hmap
    as (pre' & rest & Hpre' & Hrest & ->).
  apply Forall2_cons_inv_l in Hrest as (item & post' & Hitem & _ & ->).
  exists item. split; [done|].
  rewrite (dedup_by_url_empty_url _ _ _ Hdedup). cbn [Py.key_in existsb].
  rewrite filter_app, filter_cons.
  rewrite (normalize_hit_empty_url _ _ Hitem), Hr.
  assert (filter (λ o, has_empty_url o = true) pre' = []) as ->.
  { clear -Hpre Hpre'. induction Hpre' as [|h o pre pre' Ho _ IH]; [done|].
    cbn [forallb] in Hpre. apply andb_true_iff in Hpre as [Hh Hpre].
    rewrite filter_cons, (normalize_hit_empty_url _ _ Ho), (IH Hpre).
    apply negb_true_iff in Hh. rewrite Hh. by case_decide. }
  by case_decide.
Qed.

End Agent.

(** ** The theorems at concrete inputs *)


(** C2: three fenced responses that are not JSON. *)
Lemma gemini_json_exhausts_retries_witness :
  let w := Demo.world (replicate 3 (Demo.fenced "oops")) Demo.no_search in
  ∃ last w',
    model_reply w 2%nat = GenText last ∧
    gemini_json Json.loads "gemini-2.5-flash" "Is it so?" (1 # 10) 2 w
    = (inl (JSONDecodeError (clean_response last)), w') ∧
    n_generate w' = 3%nat ∧
    trace w' = EvGenerate "gemini-2.5-flash" "Is it so?" (1 # 10)
               :: concat (replicate 2
                    (retry_events "gemini-2.5-flash" "Is it so?" (1 # 10))).
Proof.
  intros w.
  apply (gemini_json_exhausts_retries Json.loads "gemini-2.5-flash"
           "Is it so?" (1 # 10) 2 w).
  - lia.
  - intros i Hi. exists (Some (Demo.fenced "oops")).
    assert (i = 0 ∨ i = 1 ∨ i = 2)%nat as [->|[->| ->]] by (simpl in Hi; lia);
      (split; vm_compute; reflexivity).
Defined.

(** Against C2 as stated: all three responses are the same fenced text,
    and the error raised carries [oops], the cleaned text, which is not
    the response text. *)
Lemma gemini_json_error_is_not_the_raw_text :
  let w := Demo.world (replicate 3 (Demo.fenced "oops")) Demo.no_search in
  let raw := Demo.fenced "oops" in
  model_reply w 0%nat = GenText (Some raw) ∧
  model_reply w 1%nat = GenText (Some raw) ∧
  model_reply w 2%nat = GenText (Some raw) ∧
  (gemini_json Json.loads "gemini-2.5-flash" "Is it so?" (1 # 10) 2 w).1
  = inl (JSONDecodeError "oops") ∧
  JSONDecodeError "oops" ≠ JSONDecodeError raw.
Proof.
  intros w raw. split_and!; [reflexivity..|vm_compute; reflexivity|].
  vm_compute. discriminate.
Qed.

(** Against C3 as stated: the classification response lacks [is_claim],
    validation raises a [ValidationError], and what [run_agent] raises is
    a [RuntimeError]. *)
Lemma validation_error_does_not_propagate_unmodified :
  let w := Demo.world [Demo.bad_classification_reply] Demo.no_search in
  let invalid := ValidationError "ClaimJudge" [("is_claim", "missing")] in
  ClaimJudge_new (PDict {[ "reason" := PStr "no flag" ]}) = inl invalid ∧
  (gemini_json Json.loads GEMINI_CLASSIFY_MODEL
     (classify_prompt Json.str (PStr "Is it so?")) (1 # 10) 2 w).1
  = inr (PDict {[ "reason" := PStr "no flag" ]}) ∧
  (run_agent Json.loads Json.dumps Json.str Json.validation_error_str
      "Is it so?" w).1
  = inl (RuntimeError
           ("classify_claim JSON failed validation: "
            +:+ Json.validation_error_str "ClaimJudge" [("is_claim", "missing")])) ∧
  (run_agent Json.loads Json.dumps Json.str Json.validation_error_str
      "Is it so?" w).1 ≠ inl invalid.
Proof.
  intros w invalid. split_and!; [vm_compute; reflexivity..|].
  vm_compute. discriminate.
Qed.

(** C3 at two runs: a classification without [is_claim], and a verdict
    outside the enumeration. *)
Lemma validation_failure_raises_RuntimeError_witness :
  (∃ w1,
     run_agent Json.loads Json.dumps Json.str Json.validation_error_str
         "Is it so?"
       (Demo.world [Demo.bad_classification_reply] Demo.no_search)
     = (inl (RuntimeError
               ("classify_claim JSON failed validation: "
                +:+ Json.validation_error_str "ClaimJudge"
                      [("is_claim", "missing")])), w1)) ∧
  (∃ w3,
     run_agent Json.loads Json.dumps Json.str Json.validation_error_str
         "The sky is blue."
       (Demo.world [Demo.claim_reply; Demo.maybe_reply] Demo.two_hits)
     = (inl (RuntimeError
               ("assess_claim JSON failed validation: "
                +:+ Json.validation_error_str "VerdictOut"
                      [("verdict", "literal_error")])), w3)).
Proof.
  split.
  - eexists.
    apply (proj1 (validation_failure_raises_RuntimeError Json.loads Json.dumps
                    Json.str Json.validation_error_str "Is it so?"
                    (Demo.world [Demo.bad_classification_reply] Demo.no_search))
             (PDict {[ "reason" := PStr "no flag" ]}));
      vm_compute; reflexivity.
  - set (text := "The sky is blue.").
    set (w := Demo.world [Demo.claim_reply; Demo.maybe_reply] Demo.two_hits).
    set (w1 := (gemini_json Json.loads GEMINI_CLASSIFY_MODEL
                  (classify_prompt Json.str (PStr text)) (1 # 10) 2 w).2).
    set (w2 := (tavily_search (PStr text) 6 w1).2).
    set (research := [evidence_item Demo.hit_a; evidence_item Demo.hit_b]).
    eexists.
    apply (proj2 (validation_failure_raises_RuntimeError Json.loads Json.dumps
                    Json.str Json.validation_error_str text w)
             (PDict {[ "is_claim" := PBool true; "reason" := PStr "checkable" ]})
             (mkClaimJudge true (Some "checkable")) w1
             {[ "results" := PDicts [Demo.hit_a; Demo.hit_b] ]} w2
             research (PDict Demo.maybe_verdict));
      vm_compute; reflexivity.
Defined.

(** C4 at the verdict [maybe]. *)
Lemma VerdictOut_rejects_unknown_verdict_witness :
  ∃ errors,
    VerdictOut_new (PDict Demo.maybe_verdict)
    = inl (ValidationError "VerdictOut" errors) ∧
    ("verdict", "literal_error") ∈ errors.
Proof.
  apply (VerdictOut_rejects_unknown_verdict Demo.maybe_verdict "maybe").
  - vm_compute. reflexivity.
  - intros Hin. by repeat (apply elem_of_cons in Hin as [?|Hin]; [done|]);
      apply elem_of_nil in Hin.
Defined.

(** C5 at the scenario of the specification, with a verdict that cites
    nothing: the two research items become the citations. *)
Lemma citations_fall_back_to_research_witness :
  let w := Demo.world [Demo.claim_reply; Demo.uncited_reply] Demo.two_hits in
  ∃ w3,
    run_agent Json.loads Json.dumps Json.str Json.validation_error_str
        "The sky is blue." w
    = (inr {[ "status" := PStr "fact_checked";
              "verdict" := PStr "true";
              "explanation" := PStr "well known";
              "citations" :=
                PList [PDict {[ "title" := PStr "A"; "url" := PStr "http://a" ]};
                       PDict {[ "title" := PStr "B"; "url" := PStr "http://b" ]}] ]},
       w3).
Proof.
  intros w. set (text := "The sky is blue.").
  set (w1 := (gemini_json Json.loads GEMINI_CLASSIFY_MODEL
                (classify_prompt Json.str (PStr text)) (1 # 10) 2 w).2).
  set (w2 := (tavily_search (PStr text) 6 w1).2).
  set (research := [evidence_item Demo.hit_a; evidence_item Demo.hit_b]).
  eexists.
  apply (citations_fall_back_to_research Json.loads Json.dumps Json.str
           Json.validation_error_str text w
           (PDict {[ "is_claim" := PBool true; "reason" := PStr "checkable" ]})
           (mkClaimJudge true (Some "checkable")) w1
           {[ "results" := PDicts [Demo.hit_a; Demo.hit_b] ]} w2
           research
           (PDict {[ "verdict" := PStr "true"; "explanation" := PStr "well known";
                     "citations" := PList [] ]})
           (mkVerdictOut "true" "well known" []));
    vm_compute; reflexivity.
Defined.

(** C7 at two hits with one url and different titles: the first stays. *)
Lemma normalize_research_first_occurrence_witness :
  ∃ todo mapped,
    Py.iter (Py.or (PDicts [Demo.hit_a; Demo.hit_a_again]) (PList [])) = inr todo ∧
    normalize_hits todo = inr mapped ∧
    [evidence_item Demo.hit_a] = keep_first_occurrences mapped.
Proof.
  apply (normalize_research_first_occurrence
           (PDicts [Demo.hit_a; Demo.hit_a_again]) [evidence_item Demo.hit_a]).
  vm_compute. reflexivity.
Defined.

(** Against C8 as stated: a hit whose content is a number makes the
    normalizer raise. *)
Lemma normalize_research_raises_on_number :
  normalize_research (PDicts [Demo.hit_number])
  = inl (TypeError "'int' object is not subscriptable").
Proof. vm_compute. reflexivity. Qed.

(** C8 at a hit without fields, a hit seen twice and a hit with a
    snippet. *)
Lemma normalize_research_well_formed_witness :
  let ds := [Demo.hit_no_url; Demo.hit_a; Demo.hit_a_again; Demo.hit_b] in
  normalize_research PNone = inr [] ∧
  normalize_research (PDicts ds)
  = inr (keep_first_occurrences (evidence_item <$> ds)) ∧
  Forall snippet_bounded (keep_first_occurrences (evidence_item <$> ds)).
Proof.
  intros ds. apply (normalize_research_well_formed ds). vm_compute. reflexivity.
Defined.



(** C10 at a list with three hits without a url after one with a url. *)
Lemma normalize_research_url_less_witness :
  ∃ item,
    normalize_hit (PDict Demo.hit_no_url) = inr item ∧
    filter (λ o, has_empty_url o = true)
      [evidence_item Demo.hit_a; evidence_item Demo.hit_no_url]
    = [item].
Proof.
  apply (normalize_research_url_less [PDict Demo.hit_a]
           [PDict Demo.hit_empty_url; PDict ∅] (PDict Demo.hit_no_url)
           [evidence_item Demo.hit_a; evidence_item Demo.hit_no_url]);
    vm_compute; reflexivity.
Defined.

(** ** Further runs of the model *)

Example clean_response_fenced :
  clean_response (Some ("  " +:+ Demo.fenced Demo.claim_reply +:+ Py.nl))
  = Demo.claim_reply.
Proof. vm_compute. reflexivity. Qed.

Example strip_code_fences_four_backquotes : strip_code_fences "x````" = "x`".
Proof. vm_compute. reflexivity. Qed.

Example loads_object :
  Json.loads Demo.not_a_claim_reply
  = Some (PDict {[ "is_claim" := PBool false;
                   "reason" := PStr "filler, no assertion" ]}).
Proof. vm_compute. reflexivity. Qed.

Example loads_prose : Json.loads "Sure, here is the JSON" = None.
Proof. vm_compute. reflexivity. Qed.

(** One retry: the first response is prose, the second decodes. *)
Example gemini_json_second_attempt :
  let w := Demo.world ["Sure."; Demo.fenced Demo.claim_reply] Demo.no_search in
  let '(r, w') := gemini_json Json.loads "gemini-2.5-flash" "Is it so?" (1 # 10) 2 w in
  r = inr (PDict {[ "is_claim" := PBool true; "reason" := PStr "checkable" ]}) ∧
  trace w' = EvGenerate "gemini-2.5-flash" "Is it so?" (1 # 10)
             :: retry_events "gemini-2.5-flash" "Is it so?" (1 # 10).
Proof. vm_compute. split; reflexivity. Qed.

(** A retry budget below zero: no call is made and [None] is returned. *)
Example gemini_json_negative_budget :
  let w := Demo.world [] Demo.no_search in
  gemini_json Json.loads "gemini-2.5-flash" "Is it so?" (1 # 10) (-1) w = (inr PNone, w).
Proof. vm_compute. reflexivity. Qed.

(** The first scenario of the specification: the verdict cites one
    source, and the response carries that citation. *)
Example run_agent_cited_verdict :
  let verdict_reply :=
    Demo.object
      [("verdict", Demo.quoted "true"); ("explanation", Demo.quoted "well known");
       ("citations",
        "[" +:+ Demo.object [("title", Demo.quoted "A");
                             ("url", Demo.quoted "http://a")] +:+ "]")] in
  let w := Demo.world [Demo.claim_reply; verdict_reply] Demo.two_hits in
  (run_agent Json.loads Json.dumps Json.str Json.validation_error_str
      "The sky is blue." w).1
  = inr {[ "status" := PStr "fact_checked";
           "verdict" := PStr "true";
           "explanation" := PStr "well known";
           "citations" :=
             PList [PDict {[ "title" := PStr "A"; "url" := PStr "http://a" ]}] ]}.
Proof. vm_compute. reflexivity. Qed.

(** A failing search ends the run with the client's exception. *)
Example run_agent_search_fails :
  let w := Demo.world [Demo.claim_reply] Demo.no_search in
  (run_agent Json.loads Json.dumps Json.str Json.validation_error_str
      "The sky is blue." w).1
  = inl (ServiceError "search is not expected").
Proof. vm_compute. reflexivity. Qed.
